(** * Session registry and connection handshake of [server.js]

    A shallow embedding of the Express handlers of [src/server.js] that
    touch the process-wide [sessions] map: the periodic sweep (lines 15-26),
    POST /api/config (35-97), POST /api/disconnect (100-119),
    GET /api/status (122-130) and POST /api/send (167-190); then
    GET /api/guilds (133-144), GET /api/channels/:guildId (147-164) and
    GET /api/invite (193-204), which read it.

    Modelling decisions.
    - [sessions] is a JavaScript [Map] keyed by strings: a [gmap string session].
      A [Map] iterates in insertion order, which a [gmap] does not record, so
      the sweep takes the order of iteration as an argument.
    - The discord.js [Client] is an external object.  A client is named by a
      number ([new Client] draws the next one); what the outside world does
      to it (does [login] reject, does ['ready'] fire, what is [client.user])
      is given to each handler as an environment record.
    - The client's [EventEmitter] part is Node's own and is modelled: a list
      of registrations per client, with [once], [removeListener] and [emit].
    - Handlers run in a state-and-exception monad that also collects the
      trace of the effects they perform, in program order.
    - Each handler runs from its first line to its response without another
      handler running in between its [await]s.
    - Every promise a handler awaits settles: it resolves or it rejects. A
      [destroy], [login], [fetch] or [send] that stays pending for ever, and
      with it a handler that never answers, is not modelled.
    - Request fields are strings or absent; a field is falsy when it is
      absent or the empty string. *)

From stdpp Require Import gmap strings list fin_maps.
From Stdlib Require Import ZArith.

Open Scope Z_scope.
Open Scope string_scope.
Open Scope list_scope.

(** ** Values *)

(** Value thrown or passed to [reject]: [e.message] and [String(e)].
    [undefined] and [null] are the values without [message] whose [String]
    is "undefined" and "null". *)
Record js_error := JsError {
  message : option string;
  to_str : string
}.

Global Instance js_error_eq_dec : EqDecision js_error.
Proof. solve_decision. Defined.

(** A request field: [None] is [undefined]. *)
Definition truthy (v : option string) : bool :=
  match v with
  | Some s => negb (String.eqb s "")
  | None => false
  end.

(** [v || null] *)
Definition or_null (v : option string) : option string :=
  if truthy v then v else None.

(** [(e && e.message) || String(e)] (line 95); on a value that is not
    [undefined] or [null] also [e.message || String(e)] (line 188). *)
Definition error_text (e : js_error) : string :=
  if truthy (message e) then default "" (message e) else to_str e.

(** The value is [undefined] or [null]. *)
Definition nullish (e : js_error) : bool :=
  match message e with
  | None => String.eqb (to_str e) "undefined" || String.eqb (to_str e) "null"
  | Some _ => false
  end.

(** The TypeError thrown by reading [e.message] when [e] is [undefined] or
    [null]. *)
Definition type_error (e : js_error) : js_error :=
  JsError
    (Some ("Cannot read properties of " +:+ to_str e +:+
           " (reading 'message')"))
    ("TypeError: Cannot read properties of " +:+ to_str e +:+
     " (reading 'message')").

(** ** Session records (line 12: [{ client, clientId, createdAt }]) *)

Record session := Session {
  client : option nat;
  clientId : option string;
  createdAt : Z
}.

Global Instance session_eq_dec : EqDecision session.
Proof. solve_decision. Defined.

(** ** Responses *)

Inductive body :=
| BError (error : string)                       (* { ok: false, error } *)
| BConfig (sessionId : string) (cid botTag : option string)
                                                (* { ok: true, sessionId, clientId, botTag } *)
| BOk                                           (* { ok: true } *)
| BOkMessage (msg : string)                     (* { ok: true, message } *)
| BOnline (online : bool)                       (* { online } *)
| BSent (id : string).                          (* { ok: true, id } *)

Global Instance body_eq_dec : EqDecision body.
Proof. solve_decision. Defined.

Record response := Response { status : Z; json : body }.

Global Instance response_eq_dec : EqDecision response.
Proof. solve_decision. Defined.

(** The [ok] field of a body, when it has one. *)
Definition body_ok (b : body) : option bool :=
  match b with
  | BError _ => Some false
  | BConfig _ _ _ | BOk | BOkMessage _ | BSent _ => Some true
  | BOnline _ => None
  end.

(** ** Event emitters *)

Inductive evname := ready | error.

(** The three functions the handler of /api/config registers: the anonymous
    logger of line 54, and [onReady] and [onErr] of lines 64-65. *)
Inductive listener := logReady | onReady | onErr.

Global Instance evname_eq_dec : EqDecision evname.
Proof. solve_decision. Defined.
Global Instance listener_eq_dec : EqDecision listener.
Proof. solve_decision. Defined.

(** Registrations of one emitter, oldest first. All are made with [once]. *)
Definition registrations := list (evname * listener).

(** [emitter.removeListener(n, l)]: Node removes the most recent
    registration of [l] for [n], if there is one. *)
Fixpoint remove_last (n : evname) (l : listener) (rs : registrations)
  : registrations :=
  match rs with
  | [] => []
  | r :: rs' =>
      if bool_decide (r = (n, l)) && negb (bool_decide ((n, l) ∈ rs'))
      then rs'
      else r :: remove_last n l rs'
  end.

(** Listeners that [emitter.emit(n)] calls, in order of registration. *)
Definition listeners_of (n : evname) (rs : registrations) : list listener :=
  (filter (λ r, r.1 = n) rs).*2.

(** ** Effects *)

Inductive event :=
| EvDestroy (c : nat)                               (* c.destroy() *)
| EvNewClient (c : nat)                             (* new Client(...) *)
| EvOnce (c : nat) (n : evname) (l : listener)      (* c.once(n, l) *)
| EvRemoveListener (c : nat) (n : evname) (l : listener)
| EvLogin (c : nat) (token : string)                (* c.login(token) *)
| EvCall (c : nat) (l : listener)                   (* the emitter calls l *)
| EvSetTimeout (ms : Z)
| EvTimer                                           (* the timer's callback runs *)
| EvMapSet (k : string)                             (* sessions.set(k, ...) *)
| EvMapDelete (k : string)                          (* sessions.delete(k) *)
| EvConsoleLog (text : string)
| EvConsoleError (text : string) (e : js_error)
| EvFetch (c : nat) (channelId : string)            (* c.channels.fetch(id) *)
| EvSend (channelId content : string)               (* channel.send({content}) *)
| EvRespond (r : response).

Global Instance event_eq_dec : EqDecision event.
Proof. solve_decision. Defined.

(** ** Process state *)

Record world := World {
  sessions : gmap string session;
  emitters : gmap nat registrations;
  next_client : nat
}.

Definition set_sessions (f : gmap string session → gmap string session)
  (w : world) : world :=
  World (f (sessions w)) (emitters w) (next_client w).

Definition set_emitter (c : nat) (f : registrations → registrations)
  (w : world) : world :=
  World (sessions w) (<[c := f (default [] (emitters w !! c))]> (emitters w))
        (next_client w).

Definition regs (c : nat) (w : world) : registrations :=
  default [] (emitters w !! c).

(** ** The monad of handlers *)

Inductive outcome (A : Type) :=
| Done (a : A)
| Thrown (e : js_error).
Arguments Done {A} a.
Arguments Thrown {A} e.

Definition M (A : Type) : Type := world → outcome A * world * list event.

Global Instance M_ret : MRet M := λ A a w, (Done a, w, []).

Global Instance M_bind : MBind M := λ A B k m w,
  match m w with
  | (Done a, w1, t1) =>
      match k a w1 with
      | (r, w2, t2) => (r, w2, t1 ++ t2)
      end
  | (Thrown e, w1, t1) => (Thrown e, w1, t1)
  end.

Definition throw {A} (e : js_error) : M A := λ w, (Thrown e, w, []).

(** [try { m } catch (e) { h e }] *)
Definition try_catch {A} (m : M A) (h : js_error → M A) : M A := λ w,
  match m w with
  | (Done a, w1, t1) => (Done a, w1, t1)
  | (Thrown e, w1, t1) =>
      match h e w1 with
      | (r, w2, t2) => (r, w2, t1 ++ t2)
      end
  end.

Definition tell (e : event) : M unit := λ w, (Done tt, w, [e]).
Definition get_world : M world := λ w, (Done w, w, []).
Definition modify (f : world → world) : M unit := λ w, (Done tt, f w, []).

(** [await p] where the promise resolves ([None]) or rejects. *)
Definition await (p : option js_error) : M unit :=
  match p with
  | None => mret tt
  | Some e => throw e
  end.

Definition respond (st : Z) (b : body) : M response :=
  let r := Response st b in
  tell (EvRespond r);; mret r.

Fixpoint for_each {A} (f : A → M unit) (l : list A) : M unit :=
  match l with
  | [] => mret tt
  | x :: l' => f x;; for_each f l'
  end.

(** ** Operations on the registry and on emitters *)

Definition map_set (k : string) (s : session) : M unit :=
  tell (EvMapSet k);; modify (set_sessions (<[k := s]>)).

Definition map_delete (k : string) : M unit :=
  tell (EvMapDelete k);; modify (set_sessions (delete k)).

(** [new Client({...})]: a new object, with no listener yet. *)
Definition new_client : M nat :=
  w ← get_world;
  let c := next_client w in
  tell (EvNewClient c);;
  modify (λ w, World (sessions w) (<[c := []]> (emitters w)) (S c));;
  mret c.

Definition once (c : nat) (n : evname) (l : listener) : M unit :=
  tell (EvOnce c n l);;
  modify (set_emitter c (λ rs, rs ++ [(n, l)])).

Definition removeListener (c : nat) (n : evname) (l : listener) : M unit :=
  tell (EvRemoveListener c n l);;
  modify (set_emitter c (remove_last n l)).

(** The state of the promise of line 63: pending ([None]), resolved
    ([Some None]) or rejected ([Some (Some e)]).  Settling a settled promise
    does nothing. *)
Definition promise := option (option js_error).

Definition settle (r : option js_error) (p : promise) : promise :=
  match p with
  | None => Some r
  | Some _ => p
  end.

(** [cleanup] of lines 66-69. *)
Definition cleanup (c : nat) : M unit :=
  removeListener c ready onReady;;
  removeListener c error onErr.

(** The body of each listener.  [tag] is [this.user?.tag] when the listener
    runs and [arg] the argument of the event. *)
Definition run_listener (sessionId : string) (tag : option string)
  (arg : js_error) (c : nat) (p : promise) (l : listener) : M promise :=
  tell (EvCall c l);;
  match l with
  | logReady =>
      tell (EvConsoleLog
              ("[Bot " +:+ sessionId +:+ "] pronto como " +:+
               (if truthy tag then default "" tag else "<unknown>")));;
      mret p
  | onReady => cleanup c;; mret (settle None p)
  | onErr => cleanup c;; mret (settle (Some arg) p)
  end.

Fixpoint call_all (sessionId : string) (tag : option string) (arg : js_error)
  (c : nat) (n : evname) (p : promise) (ls : list listener) : M promise :=
  match ls with
  | [] => mret p
  | l :: ls' =>
      (* a [once] wrapper first removes itself, then calls its listener *)
      modify (set_emitter c (remove_last n l));;
      p' ← run_listener sessionId tag arg c p l;
      call_all sessionId tag arg c n p' ls'
  end.

(** [c.emit(n, arg)]: the listeners registered at that moment are called in
    order of registration. *)
Definition emit (sessionId : string) (tag : option string) (arg : js_error)
  (c : nat) (n : evname) (p : promise) : M promise :=
  w ← get_world;
  call_all sessionId tag arg c n p (listeners_of n (regs c w)).

(** ** The periodic sweep (lines 15-26) *)

(** [order] is the sequence of entries that [sessions.entries()] yields and
    [destroyed c] the fate of the promise that [c.destroy()] returns. *)
Definition sweep_entry (now : Z) (destroyed : nat → option js_error)
  (entry : string * session) : M unit :=
  let '(sessionId, session) := entry in
  if bool_decide (now - createdAt session > 3600000) then
    match client session with
    | Some c =>
        (* session.client.destroy().catch(() => {}) *)
        try_catch (tell (EvDestroy c);; await (destroyed c)) (λ _, mret tt)
    | None => mret tt
    end;;
    map_delete sessionId;;
    tell (EvConsoleLog ("[Session] " +:+ sessionId +:+ " expirada e removida"))
  else mret tt.

Definition sweep (now : Z) (destroyed : nat → option js_error)
  (order : list (string * session)) : M unit :=
  for_each (sweep_entry now destroyed) order.

(** ** POST /api/config (lines 35-97) *)

Record config_req := ConfigReq {
  body_token : option string;
  body_clientId : option string;
  body_sessionId : option string
}.

(** What happens first while the promise of line 63 is pending. *)
Inductive occurrence :=
| ReadyFires                      (* the client emits 'ready' *)
| ErrorFires (e : js_error)       (* the client emits 'error' with e *)
| TimerFires.                     (* the 5000 ms timer runs *)

(** The outside world during one configuration request. *)
Record config_env := ConfigEnv {
  old_destroy : option js_error;     (* line 45: resolves, or rejects with e *)
  ready_in_login : bool;             (* 'ready' is emitted while login is pending *)
  login_result : option js_error;    (* line 58: resolves, or rejects with e *)
  user_after_login : option string;  (* discordClient.user's tag at line 61, and when
                                        'ready' fired during login; None: no user *)
  wait_first : occurrence;
  user_at_reply : option string;     (* discordClient.user's tag at line 90, after a wait *)
  date_now : Z                       (* Date.now() at line 83 *)
}.

Definition no_error : js_error := JsError None "undefined".

(** [await discordClient.login(token)] *)
Definition login (sessionId : string) (env : config_env) (c : nat)
  (token : string) : M unit :=
  tell (EvLogin c token);;
  (if ready_in_login env
   then emit sessionId (user_after_login env) no_error c ready None;; mret tt
   else mret tt);;
  await (login_result env).

(** Lines 63-73: [await new Promise(...)]. *)
Definition wait_ready (sessionId : string) (env : config_env) (c : nat)
  : M unit :=
  once c ready onReady;;
  once c error onErr;;
  tell (EvSetTimeout 5000);;
  p ← match wait_first env with
      | ReadyFires => emit sessionId (user_at_reply env) no_error c ready None
      | ErrorFires e => emit sessionId (user_at_reply env) e c error None
      | TimerFires => mret None
      end;
  match p with
  | Some r => await r
  | None =>
      (* still pending: the timer's callback settles it *)
      tell EvTimer;; cleanup c;; await None
  end.

(** Lines 42-47: tear down the client of the record already stored. *)
Definition destroy_previous (sessionId : string) (env : config_env) : M unit :=
  w ← get_world;
  match sessions w !! sessionId with
  | Some oldSession =>
      match client oldSession with
      | Some c =>
          try_catch (tell (EvDestroy c);; await (old_destroy env))
                    (λ _, mret tt)
      | None => mret tt
      end
  | None => mret tt
  end.

(** Lines 49-77: build the client, log in, wait for it to be ready. *)
Definition handshake (sessionId token : string) (env : config_env) : M nat :=
  discordClient ← new_client;
  once discordClient ready logReady;;
  login sessionId env discordClient token;;
  match user_after_login env with
  | None =>
      try_catch (wait_ready sessionId env discordClient)
        (λ e, tell (EvConsoleError
                      ("Erro esperando ready [" +:+ sessionId +:+ "]:") e))
  | Some _ => mret tt
  end;;
  mret discordClient.

(** [discordClient.user ? discordClient.user.tag : null] at line 90. *)
Definition bot_tag (env : config_env) : option string :=
  match user_after_login env with
  | None => user_at_reply env
  | Some tag => Some tag
  end.

Definition config (req : config_req) (env : config_env) : M response :=
  if negb (truthy (body_token req)) then
    respond 400 (BError "token é obrigatório")
  else if negb (truthy (body_sessionId req)) then
    respond 400 (BError "sessionId é obrigatório")
  else
    let token := default "" (body_token req) in
    let sessionId := default "" (body_sessionId req) in
    try_catch
      (destroy_previous sessionId env;;
       discordClient ← handshake sessionId token env;
       map_set sessionId
         {| client := Some discordClient;
            clientId := or_null (body_clientId req);
            createdAt := date_now env |};;
       respond 200
         (BConfig sessionId (or_null (body_clientId req)) (bot_tag env)))
      (λ e,
        map_delete sessionId;;
        tell (EvConsoleError ("Erro ao logar bot [" +:+ sessionId +:+ "]:") e);;
        respond 500 (BError (error_text e))).

(** ** POST /api/disconnect (lines 100-119) *)

Definition disconnect (body_sessionId : option string)
  (destroyed : option js_error) : M response :=
  if negb (truthy body_sessionId) then
    respond 400 (BError "sessionId é obrigatório")
  else
    let sessionId := default "" body_sessionId in
    w ← get_world;
    match sessions w !! sessionId with
    | None => respond 200 (BOkMessage "sessão já desconectada")
    | Some session =>
        match client session with
        | Some c =>
            try_catch
              (tell (EvDestroy c);; await destroyed;;
               tell (EvConsoleLog ("[Session] " +:+ sessionId +:+ " desconectada")))
              (λ e, tell (EvConsoleError
                            ("Erro ao desconectar [" +:+ sessionId +:+ "]:") e))
        | None => mret tt
        end;;
        map_delete sessionId;;
        respond 200 BOk
    end.

(** ** GET /api/status (lines 122-130) *)

(** The client for which [session && session.client &&
    session.client.isReady()] is truthy, if there is one. *)
Definition ready_client (isReady : nat → bool) (s : option session)
  : option nat :=
  match s with
  | Some session =>
      match client session with
      | Some c => if isReady c then Some c else None
      | None => None
      end
  | None => None
  end.

Definition connected (isReady : nat → bool) (s : option session) : bool :=
  bool_decide (is_Some (ready_client isReady s)).

Definition status_handler (query_sessionId : option string)
  (isReady : nat → bool) : M response :=
  if negb (truthy query_sessionId) then
    respond 400 (BError "sessionId é obrigatório")
  else
    let sessionId := default "" query_sessionId in
    w ← get_world;
    respond 200 (BOnline (connected isReady (sessions w !! sessionId))).

(** ** POST /api/send (lines 167-190) *)

Record send_req := SendReq {
  send_channelId : option string;
  send_message : option string;
  send_sessionId : option string
}.

(** What [channels.fetch] resolves to: [null], or a channel with or without
    a [send] method. *)
Inductive channel := NoChannel | Channel (has_send : bool).

Record send_env := SendEnv {
  isReady : nat → bool;
  fetched : js_error + channel;      (* line 180: rejects, or resolves *)
  sent : js_error + string           (* line 184: rejects, or resolves to a message with this id *)
}.

Definition await_value {A} (p : js_error + A) : M A :=
  match p with
  | inl e => throw e
  | inr a => mret a
  end.

(** [e.message || String(e)] of line 188: there is no [e &&] in front, so
    on [undefined] or [null] reading [e.message] throws. *)
Definition message_or_string (e : js_error) : M string :=
  if nullish e then throw (type_error e) else mret (error_text e).

Definition send (req : send_req) (env : send_env) : M response :=
  if negb (truthy (send_sessionId req)) then
    respond 400 (BError "sessionId é obrigatório")
  else
    let sessionId := default "" (send_sessionId req) in
    w ← get_world;
    match ready_client (isReady env) (sessions w !! sessionId) with
    | None => respond 400 (BError "bot não conectado")
    | Some c =>
        if negb (truthy (send_channelId req)) || negb (truthy (send_message req))
        then respond 400 (BError "channelId e message são obrigatórios")
        else
          let channelId := default "" (send_channelId req) in
          let message := default "" (send_message req) in
          try_catch
            (tell (EvFetch c channelId);;
             channel ← await_value (fetched env);
             match channel with
             | NoChannel => respond 404 (BError "canal não encontrado")
             | Channel false =>
                 respond 400 (BError "canal não suporta envio de mensagem")
             | Channel true =>
                 tell (EvSend channelId message);;
                 id ← await_value (sent env);
                 respond 200 (BSent id)
             end)
            (λ e,
              tell (EvConsoleError
                      ("Erro ao enviar mensagem [" +:+ sessionId +:+ "]:") e);;
              text ← message_or_string e;
              respond 500 (BError text))
    end.

(** Running a handler: response, state after it, and trace. *)
Definition run {A} (m : M A) (w : world) : outcome A * world * list event := m w.

Definition result_of {A} (x : outcome A * world * list event) : outcome A := x.1.1.
Definition world_of {A} (x : outcome A * world * list event) : world := x.1.2.
Definition trace_of {A} (x : outcome A * world * list event) : list event := x.2.

(** ** Order of effects in a trace *)

(** Some occurrence of [a] comes strictly before some occurrence of [b]. *)
Fixpoint before (a b : event) (t : list event) : bool :=
  match t with
  | [] => false
  | x :: t' => (bool_decide (x = a) && bool_decide (b ∈ t')) || before a b t'
  end.

(** The clients on which [destroy] was called, in order. *)
Definition destroy_of (e : event) : option nat :=
  match e with
  | EvDestroy c => Some c
  | _ => None
  end.

Definition destroyed_in (t : list event) : list nat := omap destroy_of t.

Definition is_console_error (e : event) : bool :=
  match e with
  | EvConsoleError _ _ => true
  | _ => false
  end.

(** ** Handlers spelled out

    What the lemmas below show each part of a handler to do: its effects,
    its outcome, the registry it leaves. *)

(** The effects of the handshake of lines 49-77 on client [c], case by
    case. *)
Definition log_ready_events (sessionId : string) (tag : option string)
  (c : nat) : list event :=
  [EvCall c logReady;
   EvConsoleLog ("[Bot " +:+ sessionId +:+ "] pronto como " +:+
                 (if truthy tag then default "" tag else "<unknown>"))].

Definition cleanup_events (c : nat) : list event :=
  [EvRemoveListener c ready onReady; EvRemoveListener c error onErr].

Definition wait_events (sessionId : string) (env : config_env) (c : nat)
  : list event :=
  [EvOnce c ready onReady; EvOnce c error onErr; EvSetTimeout 5000] ++
  match wait_first env with
  | ReadyFires =>
      (if ready_in_login env then []
       else log_ready_events sessionId (user_at_reply env) c) ++
      EvCall c onReady :: cleanup_events c
  | ErrorFires e =>
      EvCall c onErr :: cleanup_events c ++
      [EvConsoleError ("Erro esperando ready [" +:+ sessionId +:+ "]:") e]
  | TimerFires => EvTimer :: cleanup_events c
  end.

Definition handshake_events (sessionId token : string) (env : config_env)
  (c : nat) : list event :=
  [EvNewClient c; EvOnce c ready logReady; EvLogin c token] ++
  (if ready_in_login env
   then log_ready_events sessionId (user_after_login env) c else []) ++
  match login_result env, user_after_login env with
  | None, None => wait_events sessionId env c
  | _, _ => []
  end.

Definition handshake_outcome (env : config_env) (c : nat) : outcome nat :=
  match login_result env with
  | None => Done c
  | Some e => Thrown e
  end.

(** The effects of lines 42-47. *)
Definition previous_events (sessionId : string) (w : world) : list event :=
  match sessions w !! sessionId ≫= client with
  | Some c => [EvDestroy c]
  | None => []
  end.

(** Every client held by a record was made by an earlier [new Client]. *)
Definition clients_allocated (w : world) : Prop :=
  map_Forall
    (λ _ s, from_option (λ c, (c < next_client w)%nat) True (client s))
    (sessions w).

(** The state of a process that has just started. *)
Definition initial_world : world := World ∅ ∅ 0.

(** What a configuration request that passes validation does. *)
Definition config_reply (req : config_req) (env : config_env) : response :=
  let sid := default "" (body_sessionId req) in
  match login_result env with
  | None =>
      Response 200 (BConfig sid (or_null (body_clientId req)) (bot_tag env))
  | Some e => Response 500 (BError (error_text e))
  end.

Definition config_sessions (req : config_req) (env : config_env) (w : world)
  : gmap string session :=
  let sid := default "" (body_sessionId req) in
  match login_result env with
  | None =>
      <[sid := Session (Some (next_client w)) (or_null (body_clientId req))
                       (date_now env)]> (sessions w)
  | Some e => delete sid (sessions w)
  end.

Definition config_events (req : config_req) (env : config_env) (w : world)
  : list event :=
  let sid := default "" (body_sessionId req) in
  previous_events sid w ++
  handshake_events sid (default "" (body_token req)) env (next_client w) ++
  match login_result env with
  | None => [EvMapSet sid; EvRespond (config_reply req env)]
  | Some e =>
      [EvMapDelete sid;
       EvConsoleError ("Erro ao logar bot [" +:+ sid +:+ "]:") e;
       EvRespond (config_reply req env)]
  end.

(** No [console.error] in a trace. *)
Definition no_console_error (t : list event) : bool :=
  forallb (λ e, negb (is_console_error e)) t.

(** The sweep, spelled out: is a record expired at [now], what visiting an
    entry does, what the registry is after visiting the entries of [order],
    and whether some visited entry evicts key [k]. *)
Definition expired (now : Z) (s : session) : bool :=
  bool_decide (now - createdAt s > 3600000).

Definition sweep_entry_events (now : Z) (entry : string * session)
  : list event :=
  if expired now entry.2 then
    match client entry.2 with
    | Some c => [EvDestroy c]
    | None => []
    end ++
    [EvMapDelete entry.1;
     EvConsoleLog ("[Session] " +:+ entry.1 +:+ " expirada e removida")]
  else [].

Fixpoint swept (now : Z) (order : list (string * session))
  (m : gmap string session) : gmap string session :=
  match order with
  | [] => m
  | (k, s) :: order' =>
      swept now order' (if expired now s then delete k m else m)
  end.

Definition evicted (now : Z) (order : list (string * session)) (k : string)
  : bool :=
  existsb (λ kv, bool_decide (kv.1 = k) && expired now kv.2) order.

(** ** Concrete requests and environments used in examples *)

Definition boom : js_error := JsError (Some "boom") "Error: boom".
Definition bad_token : js_error :=
  JsError (Some "An invalid token was provided.") "Error [TokenInvalid]".

Definition req_s1 : config_req :=
  ConfigReq (Some "tok") (Some "123") (Some "s1").

(** Login resolves, no user yet, nothing happens for 5000 ms. *)
Definition env_timeout : config_env :=
  ConfigEnv None false None None TimerFires None 1000.

(** Login resolves, no user yet, then the client emits 'error'. *)
Definition env_error : config_env :=
  ConfigEnv None false None None (ErrorFires boom) None 1000.

(** Login rejects. *)
Definition env_bad_login : config_env :=
  ConfigEnv None false (Some bad_token) None TimerFires None 1000.

(** Login resolves with the user already known. *)
Definition env_ready : config_env :=
  ConfigEnv None true None (Some "bot#0001") ReadyFires (Some "bot#0001") 2000.

(** A registry that holds one record, for "s1", with client 0. *)
Definition world_s1 : world :=
  World {[ "s1" := Session (Some 0%nat) None 500 ]} ∅ 1.

(** A request to send with nothing but the key, and a world where no
    client is ready. *)
Definition req_send_empty : send_req := SendReq None None (Some "s1").
Definition env_send_offline : send_env :=
  SendEnv (λ _, false) (inr NoChannel) (inr "1").

(** Three records: "a" is old and has a client, "b" is recent, "c" is old
    and has no client. *)
Definition world_three : world :=
  World (<["a" := Session (Some 0%nat) None 0]>
         (<["b" := Session (Some 1%nat) (Some "77") 5000000]>
          (<["c" := Session None None 100]> ∅))) ∅ 2.

Definition order_abc : list (string * session) :=
  [("a", Session (Some 0%nat) None 0);
   ("b", Session (Some 1%nat) (Some "77") 5000000);
   ("c", Session None None 100)].

(** ** GET /api/guilds (lines 133-144), GET /api/channels/:guildId
    (lines 147-164) and GET /api/invite (lines 193-204)

    These three handlers are synchronous and answer with bodies of their
    own; their reply is the value the handler returns. *)

(** What the handlers read of a channel and of a guild. A discord.js
    [Collection] is a [Map]: its values are kept here in its order of
    iteration, each with its key. *)
Record chan := Chan {
  chan_id : string;
  chan_name : string;
  chan_type : Z
}.

Record guild := Guild {
  guild_id : string;
  guild_name : string;
  guild_channels : list (string * chan)      (* guild.channels.cache *)
}.

Record guild_info := GuildInfo { info_id : string; info_name : string }.

(** [collection.get(k)] *)
Fixpoint cache_get {A} (k : string) (c : list (string * A)) : option A :=
  match c with
  | [] => None
  | (k', v) :: c' => if bool_decide (k' = k) then Some v else cache_get k c'
  end.

Inductive payload :=
| PGuilds (guilds : list guild_info)          (* { ok: true, guilds } *)
| PChannels (channels : list chan)            (* { ok: true, channels } *)
| PInvite (invite : string).                  (* { ok: true, invite } *)

Record reply := Reply { reply_status : Z; reply_json : body + payload }.

Record listing_env := ListingEnv {
  client_ready : nat → bool;                  (* client.isReady() *)
  guilds_cache : nat → list (string * guild)  (* client.guilds.cache *)
}.

Definition reply_error (st : Z) (msg : string) : M reply :=
  mret (Reply st (inl (BError msg))).

Definition reply_ok (p : payload) : M reply :=
  mret (Reply 200 (inr p)).

Definition guilds_handler (query_sessionId : option string)
  (env : listing_env) : M reply :=
  if negb (truthy query_sessionId) then
    reply_error 400 "sessionId é obrigatório"
  else
    let sessionId := default "" query_sessionId in
    w ← get_world;
    match ready_client (client_ready env) (sessions w !! sessionId) with
    | None => reply_error 400 "bot não conectado"
    | Some c =>
        reply_ok (PGuilds ((λ g, GuildInfo (guild_id g.2) (guild_name g.2))
                             <$> guilds_cache env c))
    end.

(** [c.type === 0 || c.type === 5 || c.type === 15] *)
Definition text_like (c : chan) : bool :=
  Z.eqb (chan_type c) 0 || Z.eqb (chan_type c) 5 || Z.eqb (chan_type c) 15.

Definition channels_handler (guildId : string)
  (query_sessionId : option string) (env : listing_env) : M reply :=
  if negb (truthy query_sessionId) then
    reply_error 400 "sessionId é obrigatório"
  else
    let sessionId := default "" query_sessionId in
    w ← get_world;
    match ready_client (client_ready env) (sessions w !! sessionId) with
    | None => reply_error 400 "bot não conectado"
    | Some c =>
        match cache_get guildId (guilds_cache env c) with
        | None => reply_error 404 "guild não encontrada"
        | Some guild =>
            reply_ok
              (PChannels
                 ((λ c, Chan (chan_id c.2) (chan_name c.2) (chan_type c.2))
                    <$> filter (λ c, text_like c.2 = true)
                               (guild_channels guild)))
        end
    end.

Definition invite_url (clientId : string) : string :=
  "https://discord.com/oauth2/authorize?client_id=" +:+ clientId +:+
  "&permissions=274877905152&scope=bot%20applications.commands".

Definition invite_handler (query_sessionId : option string) : M reply :=
  if negb (truthy query_sessionId) then
    reply_error 400 "sessionId é obrigatório"
  else
    let sessionId := default "" query_sessionId in
    w ← get_world;
    match sessions w !! sessionId with
    | Some session =>
        if truthy (clientId session)
        then reply_ok (PInvite (invite_url (default "" (clientId session))))
        else reply_error 400 "clientId não configurado"
    | None => reply_error 400 "clientId não configurado"
    end.

(** ** The timer of line 72 when it is not the first to fire

    The handler never clears the timer: after 'ready' or 'error' settled
    the promise, the callback still runs at 5000 ms, calls [cleanup] and
    [resolve] on the settled promise. *)
Definition late_timer (c : nat) : M unit :=
  tell EvTimer;; cleanup c.

(** ** More of the handlers spelled out *)

(** 'ready' was emitted on the new client before the handler returned. *)
Definition ready_emitted (env : config_env) : bool :=
  ready_in_login env ||
  match login_result env, user_after_login env, wait_first env with
  | None, None, ReadyFires => true
  | _, _, _ => false
  end.

(** The status code of a finished handler. *)
Definition status_of (o : outcome response) : option Z :=
  match o with
  | Done r => Some (status r)
  | Thrown _ => None
  end.

Definition is_send (e : event) : bool :=
  match e with
  | EvSend _ _ => true
  | _ => false
  end.

Definition is_delete (e : event) : bool :=
  match e with
  | EvMapDelete _ => true
  | _ => false
  end.

Definition is_console_log (e : event) : bool :=
  match e with
  | EvConsoleLog _ => true
  | _ => false
  end.

(** The emitter calls the logger of line 54. *)
Definition is_logger_call (e : event) : bool :=
  match e with
  | EvCall _ logReady => true
  | _ => false
  end.

(** What a disconnect does to a record it finds. *)
Definition disconnect_events (sessionId : string) (s : session)
  (destroyed : option js_error) : list event :=
  match client s with
  | Some c =>
      [EvDestroy c;
       match destroyed with
       | None => EvConsoleLog ("[Session] " +:+ sessionId +:+ " desconectada")
       | Some e =>
           EvConsoleError ("Erro ao desconectar [" +:+ sessionId +:+ "]:") e
       end]
  | None => []
  end ++
  [EvMapDelete sessionId; EvRespond (Response 200 BOk)].

(** Records of the registry: each has a client, made by an earlier
    [new Client], and no two keys have the same client. *)
Definition registry_ok (w : world) : Prop :=
  clients_allocated w ∧
  (∀ k s, sessions w !! k = Some s → is_Some (client s)) ∧
  (∀ k1 k2 s1 s2 c,
     sessions w !! k1 = Some s1 → sessions w !! k2 = Some s2 →
     client s1 = Some c → client s2 = Some c → k1 = k2).

(** How /api/send ends once the session is ready and both fields are
    there, by what [fetch] and [send] do: the catch block of lines 186-189
    answers 500, or throws when the rejection is [undefined] or [null]. *)
Definition send_failure (e : js_error) : outcome response :=
  if nullish e then Thrown (type_error e)
  else Done (Response 500 (BError (error_text e))).

Definition send_result (env : send_env) : outcome response :=
  match fetched env with
  | inl e => send_failure e
  | inr NoChannel => Done (Response 404 (BError "canal não encontrado"))
  | inr (Channel false) =>
      Done (Response 400 (BError "canal não suporta envio de mensagem"))
  | inr (Channel true) =>
      match sent env with
      | inl e => send_failure e
      | inr id => Done (Response 200 (BSent id))
      end
  end.

(** More concrete inputs. *)
Definition env_listing : listing_env :=
  ListingEnv (λ _, true)
    (λ _, [("g1", Guild "g1" "Guild one"
                    [("c1", Chan "c1" "general" 0);
                     ("c2", Chan "c2" "voice" 2);
                     ("c3", Chan "c3" "news" 5);
                     ("c4", Chan "c4" "forum" 15)]);
           ("g2", Guild "g2" "Guild two" [])]).

Definition env_send_ok : send_env :=
  SendEnv (λ _, true) (inr (Channel true)) (inr "m1").

Definition req_send_hello : send_req :=
  SendReq (Some "c1") (Some "hello") (Some "s1").


(** * Properties *)

Lemma before_spec a b t :
  before a b t = true ↔ ∃ t1 t2 t3, t = t1 ++ a :: t2 ++ b :: t3.
Proof.
  induction t as [|x t IH]; simpl.
  - split; [done|]. intros (t1 & t2 & t3 & H). by destruct t1.
  - rewrite orb_true_iff, andb_true_iff, !bool_decide_eq_true, IH.
    split.
    + intros [[-> Hb]|(t1 & t2 & t3 & ->)].
      * apply list_elem_of_split in Hb as (t2 & t3 & ->).
        by exists [], t2, t3.
      * by exists (x :: t1), t2, t3.
    + intros (t1 & t2 & t3 & H). destruct t1 as [|y t1]; simpl in H;
        injection H as Hx Ht.
      * left. split; [done|]. rewrite Ht, elem_of_app, elem_of_cons. auto.
      * right. by exists t1, t2, t3.
Qed.


(** ** Reduction of handlers *)

Lemma regs_set_emitter_eq c f w : regs c (set_emitter c f w) = f (regs c w).
Proof. unfold regs, set_emitter. simpl. by rewrite lookup_insert_eq. Qed.

Lemma regs_new c s em n : regs c (World s (<[c := []]> em) n) = [].
Proof. unfold regs. simpl. by rewrite lookup_insert_eq. Qed.

Local Arguments regs : simpl never.
Local Arguments set_emitter : simpl never.
Local Arguments String.append : simpl never.
Local Arguments truthy : simpl never.

Ltac mred :=
  cbv [run mbind M_bind mret M_ret tell modify get_world try_catch throw
       await await_value message_or_string respond once removeListener
       cleanup emit call_all
       run_listener new_client map_set map_delete login wait_ready handshake
       settle].

Ltac mrun :=
  repeat (progress (mred; rewrite ?regs_set_emitter_eq, ?regs_new; simpl)).

Lemma run_destroy_previous sid env w :
  run (destroy_previous sid env) w = (Done (), w, previous_events sid w).
Proof.
  destruct env as [od ril lr ual wf uar dn].
  unfold destroy_previous, previous_events. mred.
  destruct (sessions w !! sid) as [old|]; simpl; [|done].
  destruct (client old); [|done]. by destruct od.
Qed.

Lemma run_handshake sid tok env w :
  ∃ w', run (handshake sid tok env) w =
          (handshake_outcome env (next_client w), w',
           handshake_events sid tok env (next_client w)) ∧
        sessions w' = sessions w ∧
        next_client w' = S (next_client w) ∧
        regs (next_client w) w' ⊆ [(ready, logReady)].
Proof.
  destruct env as [od ril lr ual wf uar dn].
  unfold handshake_events, handshake_outcome, wait_events.
  destruct ril, lr as [e|], ual as [tag|]; try destruct wf as [|e'|]; mrun.
  all: eexists; split; [reflexivity|]; simpl.
  all: rewrite ?regs_set_emitter_eq, ?regs_new; simpl.
  all: split; [done|split; [done|set_solver]].
Qed.

Lemma run_config req env w :
  truthy (body_token req) = true →
  truthy (body_sessionId req) = true →
  ∃ w', run (config req env) w =
          (Done (config_reply req env), w', config_events req env w) ∧
        sessions w' = config_sessions req env w ∧
        next_client w' = S (next_client w) ∧
        regs (next_client w) w' ⊆ [(ready, logReady)].
Proof.
  intros Htok Hsid. unfold run, config. rewrite Htok, Hsid. simpl.
  set (sid := default "" (body_sessionId req)).
  set (tok := default "" (body_token req)).
  destruct (run_handshake sid tok env w) as (w1 & Hrun & Hs & Hn & Hr).
  unfold try_catch, mbind at 1, M_bind at 1.
  pose proof (run_destroy_previous sid env w) as Hprev.
  unfold run in Hprev, Hrun. rewrite Hprev.
  unfold mbind at 1, M_bind at 1. rewrite Hrun.
  unfold config_events, config_sessions, config_reply, handshake_outcome.
  fold sid tok.
  destruct (login_result env) as [e|]; mred; cbn [fst snd].
  - eexists. split; [by rewrite <- app_assoc|]. simpl. by rewrite Hs.
  - eexists. split; [by rewrite <- !app_assoc|]. simpl. by rewrite Hs.
Qed.

Lemma destroyed_in_handshake sid tok env c :
  destroyed_in (handshake_events sid tok env c) = [].
Proof.
  unfold handshake_events, wait_events.
  by destruct (ready_in_login env), (login_result env),
       (user_after_login env), (wait_first env).
Qed.

Lemma previous_events_client sid w r c :
  sessions w !! sid = Some r → client r = Some c →
  previous_events sid w = [EvDestroy c].
Proof. intros Hr Hc. unfold previous_events. rewrite Hr. simpl. by rewrite Hc. Qed.

(** ** POST /api/config *)

(** C1, as the code has it: when login resolves and the error observer
    fires first during the bounded wait, the rejection is caught at line 74
    and logged; the handler goes on, installs the record with the new client
    and answers 200. *)
Theorem config_error_observer_is_logged req env w e :
  truthy (body_token req) = true →
  truthy (body_sessionId req) = true →
  login_result env = None →
  user_after_login env = None →
  wait_first env = ErrorFires e →
  let sid := default "" (body_sessionId req) in
  let out := run (config req env) w in
  result_of out =
    Done (Response 200
            (BConfig sid (or_null (body_clientId req)) (user_at_reply env))) ∧
  sessions (world_of out) !! sid =
    Some (Session (Some (next_client w)) (or_null (body_clientId req))
                  (date_now env)) ∧
  EvConsoleError ("Erro esperando ready [" +:+ sid +:+ "]:") e ∈ trace_of out.
Proof.
  intros Htok Hsid Hl Hu Hw sid out.
  destruct (run_config req env w Htok Hsid) as (w' & Hrun & Hs & _).
  subst out. rewrite Hrun. unfold result_of, world_of, trace_of. simpl.
  rewrite Hs. unfold config_events, config_sessions, config_reply, bot_tag,
    handshake_events, wait_events.
  rewrite Hl, Hu, Hw. fold sid. split; [done|]. split.
  - apply lookup_insert_eq.
  - set_solver.
Qed.

Lemma config_error_observer_is_logged_witness :
  result_of (run (config req_s1 env_error) initial_world) =
    Done (Response 200 (BConfig "s1" (Some "123") None)) ∧
  sessions (world_of (run (config req_s1 env_error) initial_world)) !! "s1" =
    Some (Session (Some 0%nat) (Some "123") 1000) ∧
  EvConsoleError "Erro esperando ready [s1]:" boom
    ∈ trace_of (run (config req_s1 env_error) initial_world).
Proof.
  apply (config_error_observer_is_logged req_s1 env_error initial_world boom);
    reflexivity.
Defined.

(** C1, as the spec states it, fails: with the error observer firing first
    the answer is not 500 and the record is installed. *)
Lemma config_error_observer_counterexample :
  login_result env_error = None ∧
  wait_first env_error = ErrorFires boom ∧
  status <$> (match result_of (run (config req_s1 env_error) initial_world)
              with Done r => Some r | Thrown _ => None end) = Some 200 ∧
  ¬ (sessions (world_of (run (config req_s1 env_error) initial_world)) !! "s1"
     = None).
Proof. vm_compute. repeat split; discriminate. Qed.

(** C2: when login rejects with [e], the catch block of lines 92-96 runs:
    [sessions.delete(sessionId)] comes before the response, the response is
    500 with the error's text, and afterwards the registry has no record for
    the key. Whatever the destroy of a previous client did, and whatever
    the client emitted meanwhile, makes no difference. *)
Theorem config_login_failure req env w e :
  truthy (body_token req) = true →
  truthy (body_sessionId req) = true →
  login_result env = Some e →
  let sid := default "" (body_sessionId req) in
  let out := run (config req env) w in
  let reply := Response 500 (BError (error_text e)) in
  result_of out = Done reply ∧
  sessions (world_of out) !! sid = None ∧
  before (EvMapDelete sid) (EvRespond reply) (trace_of out) = true ∧
  (∀ k, k ≠ sid → sessions (world_of out) !! k = sessions w !! k).
Proof.
  intros Htok Hsid Hl sid out reply.
  destruct (run_config req env w Htok Hsid) as (w' & Hrun & Hs & _).
  subst out. rewrite Hrun. unfold result_of, world_of, trace_of. simpl.
  rewrite Hs. unfold config_events, config_sessions, config_reply.
  rewrite Hl. fold sid reply. split; [done|]. split; [|split].
  - apply lookup_delete_eq.
  - apply before_spec.
    exists (previous_events sid w ++
            handshake_events sid (default "" (body_token req)) env
              (next_client w)), [EvConsoleError
              ("Erro ao logar bot [" +:+ sid +:+ "]:") e], [].
    by rewrite <- app_assoc.
  - intros k Hk. by apply lookup_delete_ne.
Qed.

Lemma config_login_failure_witness :
  result_of (run (config req_s1 env_bad_login) world_s1) =
    Done (Response 500 (BError "An invalid token was provided.")) ∧
  sessions (world_of (run (config req_s1 env_bad_login) world_s1)) !! "s1"
    = None ∧
  before (EvMapDelete "s1")
    (EvRespond (Response 500 (BError "An invalid token was provided.")))
    (trace_of (run (config req_s1 env_bad_login) world_s1)) = true ∧
  (∀ k, k ≠ "s1" →
     sessions (world_of (run (config req_s1 env_bad_login) world_s1)) !! k
     = sessions world_s1 !! k).
Proof.
  apply (config_login_failure req_s1 env_bad_login world_s1 bad_token);
    reflexivity.
Defined.

(** C9: a failed reconfiguration does not keep the previous session. With
    a record holding client [c1] under the key and a login that rejects,
    [destroy] is called on [c1] before [login] is called on the new client,
    the answer is 500 and the registry has no record for the key. *)
Theorem config_failure_drops_previous req env w r c1 e :
  truthy (body_token req) = true →
  truthy (body_sessionId req) = true →
  sessions w !! default "" (body_sessionId req) = Some r →
  client r = Some c1 →
  login_result env = Some e →
  let sid := default "" (body_sessionId req) in
  let out := run (config req env) w in
  result_of out = Done (Response 500 (BError (error_text e))) ∧
  sessions (world_of out) !! sid = None ∧
  before (EvDestroy c1)
         (EvLogin (next_client w) (default "" (body_token req)))
         (trace_of out) = true.
Proof.
  intros Htok Hsid Hr Hc Hl sid out.
  destruct (run_config req env w Htok Hsid) as (w' & Hrun & Hs & _).
  subst out. rewrite Hrun. unfold result_of, world_of, trace_of. simpl.
  rewrite Hs. unfold config_events, config_sessions, config_reply.
  rewrite Hl, (previous_events_client _ _ _ _ Hr Hc). fold sid.
  split; [done|]. split.
  - apply lookup_delete_eq.
  - apply before_spec. unfold handshake_events.
    by eexists [], [_; _], _.
Qed.

Lemma config_failure_drops_previous_witness :
  result_of (run (config req_s1 env_bad_login) world_s1) =
    Done (Response 500 (BError "An invalid token was provided.")) ∧
  sessions (world_of (run (config req_s1 env_bad_login) world_s1)) !! "s1"
    = None ∧
  before (EvDestroy 0) (EvLogin 1 "tok")
         (trace_of (run (config req_s1 env_bad_login) world_s1)) = true.
Proof.
  apply (config_failure_drops_previous req_s1 env_bad_login world_s1
           (Session (Some 0%nat) None 500) 0%nat bad_token);
    reflexivity.
Defined.

(** C5: a timeout of the bounded wait is not an error. When login resolves,
    the client has no user yet and the timer is the first thing to fire, the
    handler logs no error, stores the new client under the key and answers
    200 with [botTag] the user's tag at that moment, or null. *)
Theorem config_timeout_is_success req env w :
  truthy (body_token req) = true →
  truthy (body_sessionId req) = true →
  login_result env = None →
  user_after_login env = None →
  wait_first env = TimerFires →
  let sid := default "" (body_sessionId req) in
  let out := run (config req env) w in
  result_of out =
    Done (Response 200
            (BConfig sid (or_null (body_clientId req)) (user_at_reply env))) ∧
  body_ok (BConfig sid (or_null (body_clientId req)) (user_at_reply env))
    = Some true ∧
  sessions (world_of out) !! sid =
    Some (Session (Some (next_client w)) (or_null (body_clientId req))
                  (date_now env)) ∧
  no_console_error (trace_of out) = true.
Proof.
  intros Htok Hsid Hl Hu Hw sid out.
  destruct (run_config req env w Htok Hsid) as (w' & Hrun & Hs & _).
  subst out. rewrite Hrun. unfold result_of, world_of, trace_of. simpl.
  rewrite Hs. unfold config_events, config_sessions, config_reply, bot_tag,
    handshake_events, wait_events, previous_events.
  rewrite Hl, Hu, Hw. fold sid. split; [done|]. split; [done|]. split.
  - apply lookup_insert_eq.
  - unfold no_console_error. rewrite !forallb_app.
    by destruct (sessions w !! sid ≫= client), (ready_in_login env).
Qed.

Lemma config_timeout_is_success_witness :
  result_of (run (config req_s1 env_timeout) initial_world) =
    Done (Response 200 (BConfig "s1" (Some "123") None)) ∧
  body_ok (BConfig "s1" (Some "123") None) = Some true ∧
  sessions (world_of (run (config req_s1 env_timeout) initial_world)) !! "s1" =
    Some (Session (Some 0%nat) (Some "123") 1000) ∧
  no_console_error (trace_of (run (config req_s1 env_timeout) initial_world))
    = true.
Proof.
  apply (config_timeout_is_success req_s1 env_timeout initial_world);
    reflexivity.
Defined.

Lemma previous_events_destroy sid w :
  ∀ x, x ∈ previous_events sid w → ∃ c, x = EvDestroy c.
Proof.
  intros x. unfold previous_events.
  destruct (sessions w !! sid ≫= client) as [c|]; [|by intros ?%elem_of_nil].
  intros ->%list_elem_of_singleton. by exists c.
Qed.

(** C3: reconfiguring a key replaces its record. With a record holding
    client [c1] under the key and a login that resolves, the record under
    the key afterwards holds the new client [c2], different from [c1], with
    [createdAt] the current time and the request's [clientId]; [destroy] was
    called once, on [c1], before the new record was stored; the registry
    still has one record under the key and the same number of records, and
    the records under other keys are as before. *)
Theorem config_replaces_record req env w r c1 :
  clients_allocated w →
  truthy (body_token req) = true →
  truthy (body_sessionId req) = true →
  sessions w !! default "" (body_sessionId req) = Some r →
  client r = Some c1 →
  login_result env = None →
  let sid := default "" (body_sessionId req) in
  let out := run (config req env) w in
  let c2 := next_client w in
  result_of out =
    Done (Response 200
            (BConfig sid (or_null (body_clientId req)) (bot_tag env))) ∧
  sessions (world_of out) !! sid =
    Some (Session (Some c2) (or_null (body_clientId req)) (date_now env)) ∧
  c2 ≠ c1 ∧
  destroyed_in (trace_of out) = [c1] ∧
  before (EvDestroy c1) (EvMapSet sid) (trace_of out) = true ∧
  size (sessions (world_of out)) = size (sessions w) ∧
  NoDup (map_to_list (sessions (world_of out))).*1 ∧
  (∀ k, k ≠ sid → sessions (world_of out) !! k = sessions w !! k).
Proof.
  intros Hwf Htok Hsid Hr Hc Hl sid out c2.
  destruct (run_config req env w Htok Hsid) as (w' & Hrun & Hs & _).
  subst out. rewrite Hrun. unfold result_of, world_of, trace_of. simpl.
  rewrite Hs. unfold config_events, config_sessions, config_reply.
  rewrite Hl, (previous_events_client _ _ _ _ Hr Hc). fold sid c2.
  split; [done|]. split; [apply lookup_insert_eq|]. split; [|split; [|split]].
  - specialize (Hwf _ _ Hr). simpl in Hwf. rewrite Hc in Hwf. simpl in Hwf.
    subst c2. lia.
  - unfold destroyed_in. rewrite !omap_app.
    fold (destroyed_in (handshake_events sid (default "" (body_token req))
                          env c2)).
    by rewrite destroyed_in_handshake.
  - apply before_spec.
    eexists [], (handshake_events sid (default "" (body_token req)) env c2), _.
    done.
  - split; [by eapply map_size_insert_Some|].
    split; [apply NoDup_fst_map_to_list|].
    intros k Hk. by apply lookup_insert_ne.
Qed.

Lemma config_replaces_record_witness :
  result_of (run (config req_s1 env_ready) world_s1) =
    Done (Response 200 (BConfig "s1" (Some "123") (Some "bot#0001"))) ∧
  sessions (world_of (run (config req_s1 env_ready) world_s1)) !! "s1" =
    Some (Session (Some 1%nat) (Some "123") 2000) ∧
  1%nat ≠ 0%nat ∧
  destroyed_in (trace_of (run (config req_s1 env_ready) world_s1)) = [0%nat] ∧
  before (EvDestroy 0) (EvMapSet "s1")
    (trace_of (run (config req_s1 env_ready) world_s1)) = true ∧
  size (sessions (world_of (run (config req_s1 env_ready) world_s1)))
    = size (sessions world_s1) ∧
  NoDup (map_to_list
           (sessions (world_of (run (config req_s1 env_ready) world_s1)))).*1 ∧
  (∀ k, k ≠ "s1" →
     sessions (world_of (run (config req_s1 env_ready) world_s1)) !! k
     = sessions world_s1 !! k).
Proof.
  apply (config_replaces_record req_s1 env_ready world_s1
           (Session (Some 0%nat) None 500) 0%nat);
    [apply map_Forall_singleton; simpl; lia | reflexivity ..].
Defined.

(** C8, as the code has it. The observer registered before [login] is the
    logger of line 54 and nothing else; [login] is called once; the
    observers of the bounded wait, [onReady] and [onErr], are registered
    after it, when login has resolved and the client has no user yet, and
    only then: with a user at line 61, or a login that rejects, nothing is
    registered after [login] and no timer is set. When the handler returns
    neither [onReady] nor [onErr] is registered on the client any more,
    whether 'ready', 'error' or the timer came first. *)
Theorem config_observers req env w :
  truthy (body_token req) = true →
  truthy (body_sessionId req) = true →
  let c := next_client w in
  let token := default "" (body_token req) in
  let out := run (config req env) w in
  (∃ pre post,
     trace_of out = pre ++ EvLogin c token :: post ∧
     EvOnce c ready logReady ∈ pre ∧
     (∀ n l, EvOnce c n l ∈ pre → n = ready ∧ l = logReady) ∧
     (login_result env = None → user_after_login env = None →
      EvOnce c ready onReady ∈ post ∧ EvOnce c error onErr ∈ post) ∧
     (∀ c' n l, EvOnce c' n l ∈ post →
        login_result env = None ∧ user_after_login env = None ∧ c' = c ∧
        ((n = ready ∧ l = onReady) ∨ (n = error ∧ l = onErr))) ∧
     (∀ ms, EvSetTimeout ms ∈ post →
        login_result env = None ∧ user_after_login env = None ∧ ms = 5000)) ∧
  ((ready, onReady) ∉ regs c (world_of out)) ∧
  ((error, onErr) ∉ regs c (world_of out)).
Proof.
  intros Htok Hsid c token out.
  destruct (run_config req env w Htok Hsid) as (w' & Hrun & Hs & _ & Hregs).
  subst out. rewrite Hrun. unfold result_of, world_of, trace_of. simpl.
  fold c in Hregs. split.
  - unfold config_events, handshake_events. fold c token.
    set (sid := default "" (body_sessionId req)).
    exists (previous_events sid w ++ [EvNewClient c; EvOnce c ready logReady]).
    eexists. split; [by rewrite <- !app_assoc|]. split; [set_solver|].
    split; [|split; [|split]].
    + intros n l [Hin|Hin]%elem_of_app.
      * apply previous_events_destroy in Hin as [c' Hin]. discriminate.
      * rewrite !elem_of_cons, elem_of_nil in Hin.
        destruct Hin as [Hin|[Hin|[]]]; [discriminate|].
        by injection Hin as -> ->.
    + intros -> ->. unfold wait_events.
      rewrite !elem_of_app, !elem_of_cons. auto 10.
    + intros c' n l Hin. unfold wait_events, log_ready_events, cleanup_events in Hin.
      destruct (ready_in_login env), (login_result env),
        (user_after_login env); try destruct (wait_first env);
        repeat first [ rewrite elem_of_app in Hin
                     | rewrite elem_of_cons in Hin
                     | rewrite elem_of_nil in Hin ];
        destruct_or!; try discriminate; try done;
        match goal with H : EvOnce _ _ _ = _ |- _ => injection H as -> -> -> end;
        auto 10.
    + intros ms Hin. unfold wait_events, log_ready_events, cleanup_events in Hin.
      destruct (ready_in_login env), (login_result env),
        (user_after_login env); try destruct (wait_first env);
        repeat first [ rewrite elem_of_app in Hin
                     | rewrite elem_of_cons in Hin
                     | rewrite elem_of_nil in Hin ];
        destruct_or!; try discriminate; try done;
        match goal with H : EvSetTimeout _ = _ |- _ => injection H as -> end;
        auto.
  - split; intros Hin; apply Hregs, list_elem_of_singleton in Hin;
      discriminate.
Qed.

Lemma config_observers_witness :
  (∃ pre post,
     trace_of (run (config req_s1 env_error) world_s1)
       = pre ++ EvLogin 1 "tok" :: post ∧
     EvOnce 1 ready logReady ∈ pre ∧
     (∀ n l, EvOnce 1 n l ∈ pre → n = ready ∧ l = logReady) ∧
     (login_result env_error = None → user_after_login env_error = None →
      EvOnce 1 ready onReady ∈ post ∧ EvOnce 1 error onErr ∈ post) ∧
     (∀ c' n l, EvOnce c' n l ∈ post →
        login_result env_error = None ∧ user_after_login env_error = None ∧
        c' = 1%nat ∧
        ((n = ready ∧ l = onReady) ∨ (n = error ∧ l = onErr))) ∧
     (∀ ms, EvSetTimeout ms ∈ post →
        login_result env_error = None ∧ user_after_login env_error = None ∧
        ms = 5000)) ∧
  ((ready, onReady)
     ∉ regs 1 (world_of (run (config req_s1 env_error) world_s1))) ∧
  ((error, onErr)
     ∉ regs 1 (world_of (run (config req_s1 env_error) world_s1))).
Proof. apply (config_observers req_s1 env_error world_s1); reflexivity. Defined.

(** C8, as the spec states it, fails: the ready observer of the bounded
    wait is registered after [login] has been called, not before. *)
Lemma config_observers_counterexample :
  bool_decide (EvOnce 0 ready onReady
               ∈ trace_of (run (config req_s1 env_timeout) initial_world))
    = true ∧
  before (EvOnce 0 ready onReady) (EvLogin 0 "tok")
         (trace_of (run (config req_s1 env_timeout) initial_world)) = false ∧
  before (EvLogin 0 "tok") (EvOnce 0 ready onReady)
         (trace_of (run (config req_s1 env_timeout) initial_world)) = true.
Proof. by vm_compute. Qed.

(** ** POST /api/disconnect *)

(** C6: disconnecting a key that has no record answers [{ ok: true, ... }]
    with status 200, calls [destroy] on nothing and leaves the state as it
    was; so does a second disconnect of the same key. *)
Theorem disconnect_absent_idempotent sid d1 d2 w :
  truthy sid = true →
  sessions w !! default "" sid = None →
  let out1 := run (disconnect sid d1) w in
  let out2 := run (disconnect sid d2) (world_of out1) in
  let reply := Response 200 (BOkMessage "sessão já desconectada") in
  result_of out1 = Done reply ∧
  result_of out2 = Done reply ∧
  body_ok (json reply) = Some true ∧
  destroyed_in (trace_of out1) = [] ∧
  destroyed_in (trace_of out2) = [] ∧
  world_of out1 = w ∧
  world_of out2 = w.
Proof.
  intros Hsid Hnone out1 out2 reply.
  assert (H1 : run (disconnect sid d1) w = (Done reply, w, [EvRespond reply])).
  { unfold run, disconnect. rewrite Hsid. mred. simpl. by rewrite Hnone. }
  assert (H2 : run (disconnect sid d2) w = (Done reply, w, [EvRespond reply])).
  { unfold run, disconnect. rewrite Hsid. mred. simpl. by rewrite Hnone. }
  subst out2 out1. rewrite H1. unfold world_of. simpl. by rewrite H2.
Qed.

Lemma disconnect_absent_idempotent_witness :
  result_of (run (disconnect (Some "never") None) world_s1)
    = Done (Response 200 (BOkMessage "sessão já desconectada")) ∧
  result_of (run (disconnect (Some "never") (Some boom))
               (world_of (run (disconnect (Some "never") None) world_s1)))
    = Done (Response 200 (BOkMessage "sessão já desconectada")) ∧
  body_ok (json (Response 200 (BOkMessage "sessão já desconectada")))
    = Some true ∧
  destroyed_in (trace_of (run (disconnect (Some "never") None) world_s1))
    = [] ∧
  destroyed_in
    (trace_of (run (disconnect (Some "never") (Some boom))
                 (world_of (run (disconnect (Some "never") None) world_s1))))
    = [] ∧
  world_of (run (disconnect (Some "never") None) world_s1) = world_s1 ∧
  world_of (run (disconnect (Some "never") (Some boom))
              (world_of (run (disconnect (Some "never") None) world_s1)))
    = world_s1.
Proof.
  apply (disconnect_absent_idempotent (Some "never") None (Some boom) world_s1);
    reflexivity.
Defined.

(** ** GET /api/status *)

Lemma ready_client_Some isReady (o : option session) c :
  ready_client isReady o = Some c ↔
  ∃ s, o = Some s ∧ client s = Some c ∧ isReady c = true.
Proof.
  unfold ready_client. split.
  - destruct o as [s|]; [|done]. destruct (client s) as [c'|] eqn:Hc; [|done].
    destruct (isReady c') eqn:Hr; [|done]. intros [= ->]. by exists s.
  - intros (s & -> & -> & ->). done.
Qed.

(** C7: with a [sessionId] in the query, the answer is [{ online: b }]
    where [b] holds exactly when the key has a record, the record has a
    client and the client says it is ready; a key without record gives
    [{ online: false }]. The registry is not changed. *)
Theorem status_online_iff sid isReady w :
  truthy sid = true →
  let out := run (status_handler sid isReady) w in
  ∃ b, result_of out = Done (Response 200 (BOnline b)) ∧
       (b = true ↔
        ∃ s c, sessions w !! default "" sid = Some s ∧
               client s = Some c ∧ isReady c = true) ∧
       (sessions w !! default "" sid = None → b = false) ∧
       world_of out = w.
Proof.
  intros Hsid out. subst out. unfold run, status_handler. rewrite Hsid.
  mred. simpl. eexists. split; [reflexivity|]. split; [|split; [|done]].
  - unfold connected. rewrite bool_decide_eq_true. split.
    + intros [c Hc]. apply ready_client_Some in Hc as (s & ? & ? & ?).
      by exists s, c.
    + intros (s & c & ? & ? & ?). exists c. apply ready_client_Some.
      by exists s.
  - intros ->. done.
Qed.

Lemma status_online_iff_witness :
  ∃ b, result_of (run (status_handler (Some "s1") (λ _, true)) world_s1)
         = Done (Response 200 (BOnline b)) ∧
       (b = true ↔
        ∃ s c, sessions world_s1 !! "s1" = Some s ∧
               client s = Some c ∧ (λ _ : nat, true) c = true) ∧
       (sessions world_s1 !! "s1" = None → b = false) ∧
       world_of (run (status_handler (Some "s1") (λ _, true)) world_s1)
         = world_s1.
Proof.
  apply (status_online_iff (Some "s1") (λ _, true) world_s1). reflexivity.
Defined.

(** ** POST /api/send *)

(** C10: the check that the bot is connected comes before the check of
    [channelId] and [message]. With a [sessionId] in the body and no record
    with a ready client under it, the answer is 400 'bot não conectado'
    whatever the other fields are; and the answer 'channelId e message são
    obrigatórios' is only given when the key has a record whose client is
    ready. *)
Theorem send_not_connected_first req env w :
  truthy (send_sessionId req) = true →
  let session := sessions w !! default "" (send_sessionId req) in
  let out := run (send req env) w in
  (ready_client (isReady env) session = None →
   result_of out = Done (Response 400 (BError "bot não conectado")) ∧
   world_of out = w) ∧
  (result_of out =
     Done (Response 400 (BError "channelId e message são obrigatórios")) →
   ∃ s c, session = Some s ∧ client s = Some c ∧ isReady env c = true).
Proof.
  intros Hsid session out. subst out. unfold run, send. rewrite Hsid.
  mred. simpl. fold session.
  destruct (ready_client (isReady env) session) as [c|] eqn:Hrc.
  - split; [done|]. intros _.
    apply ready_client_Some in Hrc as (s & ? & ? & ?). by exists s, c.
  - split; [done|]. unfold result_of. simpl. intros [=].
Qed.

Lemma send_not_connected_first_witness :
  result_of (run (send req_send_empty env_send_offline) world_s1)
    = Done (Response 400 (BError "bot não conectado")) ∧
  world_of (run (send req_send_empty env_send_offline) world_s1) = world_s1.
Proof.
  apply (proj1 (send_not_connected_first req_send_empty env_send_offline
                  world_s1 eq_refl)).
  reflexivity.
Defined.

(** ** The periodic sweep *)

Lemma run_sweep now destroyed order w :
  run (sweep now destroyed order) w =
    (Done (),
     World (swept now order (sessions w)) (emitters w) (next_client w),
     flat_map (sweep_entry_events now) order).
Proof.
  unfold sweep. revert w. induction order as [|[k s] order IH]; intros w.
  - by destruct w.
  - simpl. unfold run, mbind, M_bind in *. unfold sweep_entry at 1.
    unfold sweep_entry_events at 1, expired. simpl.
    case_bool_decide as Hx.
    + destruct (client s) as [c|]; mred; simpl.
      * destruct (destroyed c); simpl; by rewrite IH.
      * by rewrite IH.
    + mred. rewrite IH. by destruct w.
Qed.

Lemma swept_lookup now order (m : gmap string session) k :
  swept now order m !! k = if evicted now order k then None else m !! k.
Proof.
  revert m. induction order as [|[k0 s0] order IH]; intros m; [done|].
  simpl. rewrite IH. destruct (evicted now order k); [by rewrite orb_true_r|].
  rewrite orb_false_r. destruct (expired now s0); simpl.
  - case_bool_decide as Hk; simpl.
    + subst k0. apply lookup_delete_eq.
    + by apply lookup_delete_ne.
  - by rewrite andb_false_r.
Qed.

Lemma evicted_true now order k :
  evicted now order k = true ↔ ∃ s, (k, s) ∈ order ∧ expired now s = true.
Proof.
  unfold evicted. rewrite existsb_exists. split.
  - intros ([k' s] & Hin & Hb). simpl in Hb.
    apply andb_true_iff in Hb as [->%bool_decide_eq_true Hb].
    exists s. split; [|done]. by apply list_elem_of_In.
  - intros (s & Hin & Hb). exists (k, s). split; [by apply list_elem_of_In|].
    simpl. by rewrite bool_decide_eq_true_2.
Qed.

(** C4: whatever the order in which the entries are visited, the sweep at
    time [now] leaves exactly the records with [now - createdAt <= 3600000],
    each as it was; it calls [destroy] once on the client of every record it
    evicts and on no other client; a [destroy] that fails does not stop it. *)
Theorem sweep_removes_expired now destroyed order w :
  order ≡ₚ map_to_list (sessions w) →
  let out := run (sweep now destroyed order) w in
  result_of out = Done () ∧
  sessions (world_of out) =
    filter (λ kv, ¬ (now - createdAt kv.2 > 3600000)) (sessions w) ∧
  (∀ k s, sessions w !! k = Some s →
     sessions (world_of out) !! k =
       if bool_decide (now - createdAt s > 3600000) then None else Some s) ∧
  (∀ k, sessions w !! k = None → sessions (world_of out) !! k = None) ∧
  destroyed_in (trace_of out) ≡ₚ
    omap (λ kv, if bool_decide (now - createdAt kv.2 > 3600000)
                then client kv.2 else None)
         (map_to_list (sessions w)).
Proof.
  intros Hperm out. subst out. rewrite run_sweep.
  unfold result_of, world_of, trace_of. simpl.
  assert (Hlook : ∀ k s, sessions w !! k = Some s →
            swept now order (sessions w) !! k =
              if expired now s then None else Some s).
  { intros k s Hk. rewrite swept_lookup.
    destruct (evicted now order k) eqn:Hev.
    - apply evicted_true in Hev as (s' & Hin & Hs').
      rewrite Hperm in Hin. apply elem_of_map_to_list in Hin.
      rewrite Hk in Hin. injection Hin as ->. by rewrite Hs'.
    - destruct (expired now s) eqn:Hs; [|done].
      assert (evicted now order k = true) as Hev'; [|congruence].
      apply evicted_true. exists s. split; [|done].
      rewrite Hperm. by apply elem_of_map_to_list. }
  assert (Hnone : ∀ k, sessions w !! k = None →
            swept now order (sessions w) !! k = None).
  { intros k Hk. rewrite swept_lookup, Hk. by destruct (evicted now order k). }
  split; [done|]. split; [|split; [done|split; [done|]]].
  - apply map_eq. intros k. destruct (sessions w !! k) as [s|] eqn:Hk.
    + rewrite (Hlook _ _ Hk). unfold expired. case_bool_decide as Hx.
      * symmetry. apply map_lookup_filter_None. right. intros s' Hs'.
        rewrite Hk in Hs'. injection Hs' as <-. simpl. tauto.
      * symmetry. by apply map_lookup_filter_Some.
    + rewrite (Hnone _ Hk). symmetry. apply map_lookup_filter_None. by left.
  - rewrite <- Hperm. clear. unfold destroyed_in.
    induction order as [|[k s] order IH]; [done|].
    simpl. rewrite omap_app, IH. unfold sweep_entry_events, expired at 1.
    simpl. case_bool_decide; [|done]. by destruct (client s).
Qed.

Lemma sweep_removes_expired_witness :
  result_of (run (sweep 4000000 (λ _, Some boom) order_abc) world_three)
    = Done () ∧
  sessions (world_of (run (sweep 4000000 (λ _, Some boom) order_abc)
                        world_three)) =
    filter (λ kv, ¬ (4000000 - createdAt kv.2 > 3600000))
           (sessions world_three) ∧
  (∀ k s, sessions world_three !! k = Some s →
     sessions (world_of (run (sweep 4000000 (λ _, Some boom) order_abc)
                           world_three)) !! k =
       if bool_decide (4000000 - createdAt s > 3600000) then None else Some s) ∧
  (∀ k, sessions world_three !! k = None →
     sessions (world_of (run (sweep 4000000 (λ _, Some boom) order_abc)
                           world_three)) !! k = None) ∧
  destroyed_in (trace_of (run (sweep 4000000 (λ _, Some boom) order_abc)
                            world_three)) ≡ₚ
    omap (λ kv, if bool_decide (4000000 - createdAt kv.2 > 3600000)
                then client kv.2 else None)
         (map_to_list (sessions world_three)).
Proof.
  apply (sweep_removes_expired 4000000 (λ _, Some boom) order_abc world_three).
  vm_compute. symmetry. apply (Permutation_cons_append [_; _]).
Defined.

(** The threshold is strict: a record exactly one hour old stays. *)
Example sweep_keeps_one_hour_old :
  sessions (world_of (run (sweep 3600500 (λ _, None)
                             [("s1", Session (Some 0%nat) None 500)])
                        world_s1)) !! "s1"
  = Some (Session (Some 0%nat) None 500).
Proof. by vm_compute. Qed.

Example sweep_evicts_older :
  run (sweep 3600501 (λ _, None) [("s1", Session (Some 0%nat) None 500)])
      world_s1
  = (Done (), World ∅ ∅ 1,
     [EvDestroy 0; EvMapDelete "s1";
      EvConsoleLog "[Session] s1 expirada e removida"]).
Proof. by vm_compute. Qed.

(** ** The registry only holds clients that were made *)

Lemma initial_world_allocated : clients_allocated initial_world.
Proof. apply map_Forall_empty. Qed.

Lemma clients_allocated_weaken (m : gmap string session) n n' :
  (n ≤ n')%nat →
  map_Forall (λ _ s, from_option (λ c, (c < n)%nat) True (client s)) m →
  map_Forall (λ _ s, from_option (λ c, (c < n')%nat) True (client s)) m.
Proof.
  intros Hle Hm. eapply map_Forall_impl; [exact Hm|]. intros k s. simpl.
  destruct (client s); simpl; [lia|done].
Qed.

Lemma config_allocated req env w :
  clients_allocated w → clients_allocated (world_of (run (config req env) w)).
Proof.
  intros Hwf.
  destruct (truthy (body_token req)) eqn:Htok;
    [destruct (truthy (body_sessionId req)) eqn:Hsid|].
  - destruct (run_config req env w Htok Hsid) as (w' & Hrun & Hs & Hn & _).
    rewrite Hrun. unfold world_of, clients_allocated. simpl.
    rewrite Hs, Hn. unfold config_sessions.
    destruct (login_result env).
    + apply map_Forall_delete. eapply clients_allocated_weaken; [|done]. lia.
    + apply map_Forall_insert_2; [simpl; lia|].
      eapply clients_allocated_weaken; [|done]. lia.
  - unfold run, config. by rewrite Htok, Hsid.
  - unfold run, config. by rewrite Htok.
Qed.

Lemma swept_allocated now order (m : gmap string session) n :
  map_Forall (λ _ s, from_option (λ c, (c < n)%nat) True (client s)) m →
  map_Forall (λ _ s, from_option (λ c, (c < n)%nat) True (client s))
             (swept now order m).
Proof.
  revert m. induction order as [|[k s] order IH]; intros m Hm; [done|].
  simpl. apply IH. destruct (expired now s); [|done].
  by apply map_Forall_delete.
Qed.

Lemma sweep_allocated now destroyed order w :
  clients_allocated w →
  clients_allocated (world_of (run (sweep now destroyed order) w)).
Proof. intros Hwf. rewrite run_sweep. by apply swept_allocated. Qed.

Lemma disconnect_allocated sid d w :
  clients_allocated w →
  clients_allocated (world_of (run (disconnect sid d) w)).
Proof.
  intros Hwf. unfold run, disconnect.
  destruct (truthy sid); simpl; [|done]. mred.
  destruct (sessions w !! default "" sid) as [s|]; [|done].
  destruct (client s); [destruct d|]; simpl; by apply map_Forall_delete.
Qed.

(** ** End-to-end scenarios of the specification, on the model *)

Example bad_token_then_status :
  result_of (run (config (ConfigReq (Some "bad") None (Some "s1"))
                    env_bad_login) initial_world)
    = Done (Response 500 (BError "An invalid token was provided.")) ∧
  result_of
    (run (status_handler (Some "s1") (λ _, true))
       (world_of (run (config (ConfigReq (Some "bad") None (Some "s1"))
                         env_bad_login) initial_world)))
    = Done (Response 200 (BOnline false)).
Proof. by vm_compute. Qed.

Example send_without_message :
  result_of (run (send (SendReq (Some "42") None (Some "s1"))
                    (SendEnv (λ _, true) (inr (Channel true)) (inr "9")))
               world_s1)
  = Done (Response 400 (BError "channelId e message são obrigatórios")).
Proof. by vm_compute. Qed.

Example disconnect_present :
  run (disconnect (Some "s1") (Some boom)) world_s1
  = (Done (Response 200 BOk), World ∅ ∅ 1,
     [EvDestroy 0; EvConsoleError "Erro ao desconectar [s1]:" boom;
      EvMapDelete "s1"; EvRespond (Response 200 BOk)]).
Proof. by vm_compute. Qed.

(** * Further properties of the handlers *)

(** ** More on the reduction of /api/config *)

Lemma regs_set_emitter_ne c c' f w :
  c' ≠ c → regs c' (set_emitter c f w) = regs c' w.
Proof.
  intros Hne. unfold regs, set_emitter. simpl. by rewrite lookup_insert_ne.
Qed.

Lemma regs_new_ne c c' s em n n' :
  c' ≠ c → regs c' (World s (<[c := []]> em) n) = regs c' (World s em n').
Proof. intros Hne. unfold regs. simpl. by rewrite lookup_insert_ne. Qed.

Lemma run_handshake_exact sid tok env w :
  ∃ w', run (handshake sid tok env) w =
          (handshake_outcome env (next_client w), w',
           handshake_events sid tok env (next_client w)) ∧
        sessions w' = sessions w ∧
        next_client w' = S (next_client w) ∧
        regs (next_client w) w' =
          (if ready_emitted env then [] else [(ready, logReady)]) ∧
        (∀ c', c' ≠ next_client w → regs c' w' = regs c' w).
Proof.
  destruct env as [od ril lr ual wf uar dn].
  unfold handshake_events, handshake_outcome, wait_events, ready_emitted.
  destruct ril, lr as [e|], ual as [tag|]; try destruct wf as [|e'|]; mrun.
  all: eexists; split; [reflexivity|]; simpl.
  all: rewrite ?regs_set_emitter_eq, ?regs_new; simpl.
  all: split; [done|split; [done|split; [done|]]].
  all: intros c' Hne; rewrite ?(regs_set_emitter_ne _ _ _ _ Hne).
  all: rewrite (regs_new_ne _ _ _ _ _ (next_client w) Hne); by destruct w.
Qed.

Lemma run_config_exact req env w :
  truthy (body_token req) = true →
  truthy (body_sessionId req) = true →
  ∃ w', run (config req env) w =
          (Done (config_reply req env), w', config_events req env w) ∧
        sessions w' = config_sessions req env w ∧
        next_client w' = S (next_client w) ∧
        regs (next_client w) w' =
          (if ready_emitted env then [] else [(ready, logReady)]) ∧
        (∀ c', c' ≠ next_client w → regs c' w' = regs c' w).
Proof.
  intros Htok Hsid. unfold run, config. rewrite Htok, Hsid. simpl.
  set (sid := default "" (body_sessionId req)).
  set (tok := default "" (body_token req)).
  destruct (run_handshake_exact sid tok env w)
    as (w1 & Hrun & Hs & Hn & Hr & Hr').
  unfold try_catch, mbind at 1, M_bind at 1.
  pose proof (run_destroy_previous sid env w) as Hprev.
  unfold run in Hprev, Hrun. rewrite Hprev.
  unfold mbind at 1, M_bind at 1. rewrite Hrun.
  unfold config_events, config_sessions, config_reply, handshake_outcome.
  fold sid tok.
  destruct (login_result env) as [e|]; mred; cbn [fst snd].
  - eexists. split; [by rewrite <- app_assoc|]. simpl. by rewrite Hs.
  - eexists. split; [by rewrite <- !app_assoc|]. simpl. by rewrite Hs.
Qed.

Lemma run_config_invalid req env w :
  truthy (body_token req) && truthy (body_sessionId req) = false →
  let msg := if truthy (body_token req)
             then "sessionId é obrigatório" else "token é obrigatório" in
  run (config req env) w =
    (Done (Response 400 (BError msg)), w,
     [EvRespond (Response 400 (BError msg))]).
Proof.
  intros Hv. unfold run, config.
  destruct (truthy (body_token req)); [|done].
  by destruct (truthy (body_sessionId req)).
Qed.

Lemma destroyed_in_config_events req env w :
  destroyed_in (config_events req env w) =
    option_list (sessions w !! default "" (body_sessionId req) ≫= client).
Proof.
  unfold config_events, destroyed_in. rewrite !omap_app.
  fold (destroyed_in (handshake_events (default "" (body_sessionId req))
          (default "" (body_token req)) env (next_client w))).
  rewrite destroyed_in_handshake. unfold previous_events.
  destruct (sessions w !! default "" (body_sessionId req) ≫= client);
    by destruct (login_result env).
Qed.

(** ** POST /api/config: validation, status codes, effects *)

(** X1: a request without token, or without sessionId, is answered 400 and
    nothing else happens: no client is built, none is destroyed, the state
    is the same. The token is checked first. *)
Theorem config_rejects_missing_fields req env w :
  truthy (body_token req) && truthy (body_sessionId req) = false →
  run (config req env) w =
    (Done (Response 400
             (BError (if truthy (body_token req)
                      then "sessionId é obrigatório"
                      else "token é obrigatório"))),
     w,
     [EvRespond (Response 400
                   (BError (if truthy (body_token req)
                            then "sessionId é obrigatório"
                            else "token é obrigatório")))]).
Proof. apply run_config_invalid. Qed.

Lemma config_rejects_missing_fields_witness :
  run (config (ConfigReq (Some "") (Some "123") None) env_ready) world_s1 =
    (Done (Response 400 (BError "token é obrigatório")), world_s1,
     [EvRespond (Response 400 (BError "token é obrigatório"))]).
Proof.
  apply (config_rejects_missing_fields
           (ConfigReq (Some "") (Some "123") None) env_ready world_s1).
  reflexivity.
Defined.

(** X2: once the promises it awaits have settled, /api/config answers with
    status 400 when a field is missing, 500 when login rejects and 200 when
    login resolves. Nothing else changes the status: not a destroy of the
    previous client that rejects, not what the client emits during the
    wait. *)
Theorem config_status_cases req env w :
  status_of (result_of (run (config req env) w)) =
    Some (if truthy (body_token req) && truthy (body_sessionId req)
          then match login_result env with
               | None => 200
               | Some _ => 500
               end
          else 400).
Proof.
  destruct (truthy (body_token req) && truthy (body_sessionId req)) eqn:Hv.
  - apply andb_true_iff in Hv as [Htok Hsid].
    destruct (run_config req env w Htok Hsid) as (w' & -> & _).
    unfold result_of, config_reply. simpl. by destruct (login_result env).
  - by rewrite (run_config_invalid req env w Hv).
Qed.

(** X3: a configuration request that passes validation calls [destroy] on
    the client of the record stored under its key, once, and on nothing
    else; with no record under the key it destroys nothing. The client it
    builds is never destroyed by it, not even when login rejects. *)
Theorem config_destroys_only_previous req env w :
  clients_allocated w →
  truthy (body_token req) = true →
  truthy (body_sessionId req) = true →
  let out := run (config req env) w in
  destroyed_in (trace_of out) =
    option_list (sessions w !! default "" (body_sessionId req) ≫= client) ∧
  next_client w ∉ destroyed_in (trace_of out).
Proof.
  intros Hwf Htok Hsid out.
  destruct (run_config req env w Htok Hsid) as (w' & Hrun & _).
  subst out. rewrite Hrun. unfold trace_of. simpl.
  rewrite destroyed_in_config_events. split; [done|].
  destruct (sessions w !! default "" (body_sessionId req)) as [s|] eqn:Hs;
    simpl; [|apply not_elem_of_nil].
  specialize (Hwf _ _ Hs). simpl in Hwf.
  destruct (client s) as [c|]; simpl in *; [|apply not_elem_of_nil].
  rewrite list_elem_of_singleton. lia.
Qed.

Lemma config_destroys_only_previous_witness :
  destroyed_in (trace_of (run (config req_s1 env_bad_login) world_s1)) =
    option_list (sessions world_s1 !! "s1" ≫= client) ∧
  1%nat ∉ destroyed_in (trace_of (run (config req_s1 env_bad_login) world_s1)).
Proof.
  apply (config_destroys_only_previous req_s1 env_bad_login world_s1);
    [apply map_Forall_singleton; simpl; lia | reflexivity ..].
Defined.

(** X4: the first configuration of a key adds one record to the registry
    and destroys nothing. *)
Theorem config_first_time req env w :
  truthy (body_token req) = true →
  truthy (body_sessionId req) = true →
  sessions w !! default "" (body_sessionId req) = None →
  login_result env = None →
  let sid := default "" (body_sessionId req) in
  let out := run (config req env) w in
  sessions (world_of out) =
    <[sid := Session (Some (next_client w)) (or_null (body_clientId req))
                     (date_now env)]> (sessions w) ∧
  size (sessions (world_of out)) = S (size (sessions w)) ∧
  destroyed_in (trace_of out) = [].
Proof.
  intros Htok Hsid Hnone Hl sid out.
  destruct (run_config req env w Htok Hsid) as (w' & Hrun & Hs & _).
  subst out. rewrite Hrun. unfold world_of, trace_of. simpl.
  rewrite Hs, destroyed_in_config_events, Hnone. unfold config_sessions.
  rewrite Hl. fold sid.
  split; [done|]. split; [by apply map_size_insert_None|done].
Qed.

Lemma config_first_time_witness :
  sessions (world_of (run (config req_s1 env_timeout) initial_world)) =
    <["s1" := Session (Some 0%nat) (Some "123") 1000]>
      (sessions initial_world) ∧
  size (sessions (world_of (run (config req_s1 env_timeout) initial_world)))
    = S (size (sessions initial_world)) ∧
  destroyed_in (trace_of (run (config req_s1 env_timeout) initial_world)) = [].
Proof.
  apply (config_first_time req_s1 env_timeout initial_world); reflexivity.
Defined.

(** X5: whatever the request and whatever happens, /api/config leaves the
    records under other keys as they are. *)
Theorem config_other_keys req env w k :
  k ≠ default "" (body_sessionId req) →
  sessions (world_of (run (config req env) w)) !! k = sessions w !! k.
Proof.
  intros Hk.
  destruct (truthy (body_token req) && truthy (body_sessionId req)) eqn:Hv.
  - apply andb_true_iff in Hv as [Htok Hsid].
    destruct (run_config req env w Htok Hsid) as (w' & -> & Hs & _).
    unfold world_of. simpl. rewrite Hs. unfold config_sessions.
    destruct (login_result env).
    + by apply lookup_delete_ne.
    + by apply lookup_insert_ne.
  - by rewrite (run_config_invalid req env w Hv).
Qed.

Lemma config_other_keys_witness :
  sessions (world_of (run (config (ConfigReq (Some "tok") None (Some "b"))
                             env_bad_login) world_three)) !! "a"
  = sessions world_three !! "a".
Proof.
  apply (config_other_keys (ConfigReq (Some "tok") None (Some "b"))
           env_bad_login world_three "a").
  discriminate.
Defined.

(** X6: when [discordClient.user] is already there as login resolves, the
    handler does not wait: it sets no timer, registers no observer but the
    logger, logs no error and answers 200 with the user's tag. *)
Theorem config_skips_wait req env w tag :
  truthy (body_token req) = true →
  truthy (body_sessionId req) = true →
  login_result env = None →
  user_after_login env = Some tag →
  let sid := default "" (body_sessionId req) in
  let out := run (config req env) w in
  result_of out =
    Done (Response 200 (BConfig sid (or_null (body_clientId req)) (Some tag))) ∧
  (∀ ms, EvSetTimeout ms ∉ trace_of out) ∧
  (∀ c n l, EvOnce c n l ∈ trace_of out → n = ready ∧ l = logReady) ∧
  no_console_error (trace_of out) = true.
Proof.
  intros Htok Hsid Hl Hu sid out.
  destruct (run_config req env w Htok Hsid) as (w' & Hrun & _).
  subst out. rewrite Hrun. unfold result_of, trace_of. simpl.
  unfold config_events, config_reply, bot_tag, handshake_events,
    log_ready_events, previous_events.
  rewrite Hl, Hu. fold sid. split; [done|].
  destruct (sessions w !! sid ≫= client) as [c0|], (ready_in_login env);
    simpl.
  all: split; [|split; [|done]].
  all: try (intros ms Hin; rewrite !elem_of_cons, elem_of_nil in Hin;
            intuition discriminate).
  all: intros c n l Hin; rewrite !elem_of_cons, elem_of_nil in Hin.
  all: repeat (destruct Hin as [Hin|Hin]; try discriminate Hin;
               try (by injection Hin as -> -> ->)).
  all: done.
Qed.

Lemma config_skips_wait_witness :
  result_of (run (config req_s1 env_ready) world_s1) =
    Done (Response 200 (BConfig "s1" (Some "123") (Some "bot#0001"))) ∧
  (∀ ms, EvSetTimeout ms ∉ trace_of (run (config req_s1 env_ready) world_s1)) ∧
  (∀ c n l, EvOnce c n l ∈ trace_of (run (config req_s1 env_ready) world_s1) →
            n = ready ∧ l = logReady) ∧
  no_console_error (trace_of (run (config req_s1 env_ready) world_s1)) = true.
Proof.
  apply (config_skips_wait req_s1 env_ready world_s1 "bot#0001"); reflexivity.
Defined.

(** X7: what stays registered on the new client when the handler returns.
    If 'ready' was emitted, during login or during the wait, the logger ran
    once and no observer is left; if not, the logger did not run and is the
    one observer left. The observers of other clients are as before. *)
Theorem config_final_registrations req env w :
  truthy (body_token req) = true →
  truthy (body_sessionId req) = true →
  let c := next_client w in
  let out := run (config req env) w in
  regs c (world_of out) =
    (if ready_emitted env then [] else [(ready, logReady)]) ∧
  length (List.filter is_logger_call (trace_of out)) =
    (if ready_emitted env then 1%nat else 0%nat) ∧
  (∀ c', c' ≠ c → regs c' (world_of out) = regs c' w).
Proof.
  intros Htok Hsid c out.
  destruct (run_config_exact req env w Htok Hsid)
    as (w' & Hrun & _ & _ & Hr & Hr').
  subst out. rewrite Hrun. unfold world_of, trace_of. simpl.
  split; [done|]. split; [|done].
  unfold config_events, handshake_events, wait_events, log_ready_events,
    previous_events, ready_emitted.
  rewrite !List.filter_app, !length_app.
  destruct (sessions w !! default "" (body_sessionId req) ≫= client),
    (ready_in_login env), (login_result env), (user_after_login env);
    try destruct (wait_first env); reflexivity.
Qed.

Lemma config_final_registrations_witness :
  regs 1 (world_of (run (config req_s1 env_timeout) world_s1)) =
    (if ready_emitted env_timeout then [] else [(ready, logReady)]) ∧
  length (List.filter is_logger_call
            (trace_of (run (config req_s1 env_timeout) world_s1))) =
    (if ready_emitted env_timeout then 1%nat else 0%nat) ∧
  (∀ c', c' ≠ 1%nat →
     regs c' (world_of (run (config req_s1 env_timeout) world_s1))
     = regs c' world_s1).
Proof.
  apply (config_final_registrations req_s1 env_timeout world_s1); reflexivity.
Defined.

(** X8: the timer of line 72 is never cleared. When its callback runs after
    the handler has returned, it changes nothing: the same observers, the
    same registry. *)
Theorem late_timer_changes_nothing req env w :
  truthy (body_token req) = true →
  truthy (body_sessionId req) = true →
  let w' := world_of (run (config req env) w) in
  let out := run (late_timer (next_client w)) w' in
  result_of out = Done () ∧
  sessions (world_of out) = sessions w' ∧
  (∀ c, regs c (world_of out) = regs c w').
Proof.
  intros Htok Hsid w' out.
  destruct (run_config_exact req env w Htok Hsid)
    as (w1 & Hrun & _ & _ & Hr & _).
  subst out w'. rewrite Hrun. unfold world_of. simpl.
  unfold late_timer. mred. simpl. split; [done|]. split; [done|].
  intros c. destruct (decide (c = next_client w)) as [->|Hne].
  - rewrite !regs_set_emitter_eq, Hr. by destruct (ready_emitted env).
  - by rewrite !(regs_set_emitter_ne _ _ _ _ Hne).
Qed.

Lemma late_timer_changes_nothing_witness :
  result_of (run (late_timer 1)
               (world_of (run (config req_s1 env_error) world_s1))) = Done () ∧
  sessions (world_of (run (late_timer 1)
                        (world_of (run (config req_s1 env_error) world_s1))))
    = sessions (world_of (run (config req_s1 env_error) world_s1)) ∧
  (∀ c, regs c (world_of (run (late_timer 1)
                            (world_of (run (config req_s1 env_error) world_s1))))
        = regs c (world_of (run (config req_s1 env_error) world_s1))).
Proof.
  apply (late_timer_changes_nothing req_s1 env_error world_s1); reflexivity.
Defined.

(** ** POST /api/disconnect on a key that has a record *)

Lemma run_disconnect_present sid d w s :
  truthy sid = true →
  sessions w !! default "" sid = Some s →
  run (disconnect sid d) w =
    (Done (Response 200 BOk), set_sessions (delete (default "" sid)) w,
     disconnect_events (default "" sid) s d).
Proof.
  intros Hsid Hs. unfold run, disconnect, disconnect_events. rewrite Hsid.
  mred. simpl. rewrite Hs. by destruct (client s), d.
Qed.

(** X9: disconnecting a key that has a record answers 200 [{ ok: true }],
    calls [destroy] once on the record's client and removes the record,
    whether the destroy resolves or rejects; the records under other keys
    stay. *)
Theorem disconnect_removes_record sid d w s :
  truthy sid = true →
  sessions w !! default "" sid = Some s →
  let k := default "" sid in
  let out := run (disconnect sid d) w in
  result_of out = Done (Response 200 BOk) ∧
  sessions (world_of out) = delete k (sessions w) ∧
  sessions (world_of out) !! k = None ∧
  size (sessions w) = S (size (sessions (world_of out))) ∧
  destroyed_in (trace_of out) = option_list (client s) ∧
  (∀ c, client s = Some c →
        before (EvDestroy c) (EvMapDelete k) (trace_of out) = true).
Proof.
  intros Hsid Hs k out. subst out.
  rewrite (run_disconnect_present sid d w s Hsid Hs).
  unfold result_of, world_of, trace_of. simpl. fold k.
  split; [done|]. split; [done|]. split; [apply lookup_delete_eq|].
  split.
  { rewrite <- (insert_delete_id (sessions w) k s Hs) at 1.
    apply map_size_insert_None, lookup_delete_eq. }
  unfold disconnect_events. split.
  - by destruct (client s), d.
  - intros c ->. apply before_spec. by eexists [], [_], [_].
Qed.

Lemma disconnect_removes_record_witness :
  result_of (run (disconnect (Some "s1") (Some boom)) world_s1)
    = Done (Response 200 BOk) ∧
  sessions (world_of (run (disconnect (Some "s1") (Some boom)) world_s1))
    = delete "s1" (sessions world_s1) ∧
  sessions (world_of (run (disconnect (Some "s1") (Some boom)) world_s1))
    !! "s1" = None ∧
  size (sessions world_s1) =
    S (size (sessions
               (world_of (run (disconnect (Some "s1") (Some boom)) world_s1)))) ∧
  destroyed_in (trace_of (run (disconnect (Some "s1") (Some boom)) world_s1))
    = option_list (client (Session (Some 0%nat) None 500)) ∧
  (∀ c, client (Session (Some 0%nat) None 500) = Some c →
        before (EvDestroy c) (EvMapDelete "s1")
          (trace_of (run (disconnect (Some "s1") (Some boom)) world_s1))
        = true).
Proof.
  apply (disconnect_removes_record (Some "s1") (Some boom) world_s1
           (Session (Some 0%nat) None 500)); reflexivity.
Defined.

(** X10: a configuration followed by a disconnect of the same key is a
    round trip on the registry. If the key had no record and login
    resolves, then after the disconnect the registry is what it was before
    the configuration, and the one client that was built is the one client
    that was destroyed. *)
Theorem config_then_disconnect req env d w :
  truthy (body_token req) = true →
  truthy (body_sessionId req) = true →
  sessions w !! default "" (body_sessionId req) = None →
  login_result env = None →
  let w1 := world_of (run (config req env) w) in
  let out := run (disconnect (body_sessionId req) d) w1 in
  result_of out = Done (Response 200 BOk) ∧
  sessions (world_of out) = sessions w ∧
  destroyed_in (trace_of out) = [next_client w].
Proof.
  intros Htok Hsid Hnone Hl w1 out.
  destruct (run_config req env w Htok Hsid) as (w' & Hrun & Hs & _).
  subst out w1. rewrite Hrun.
  change (world_of (Done (config_reply req env), w', config_events req env w))
    with w'.
  unfold config_sessions in Hs. rewrite Hl in Hs.
  assert (Hk : sessions w' !! default "" (body_sessionId req) =
               Some (Session (Some (next_client w))
                       (or_null (body_clientId req)) (date_now env))).
  { rewrite Hs. apply lookup_insert_eq. }
  rewrite (run_disconnect_present _ d w' _ Hsid Hk).
  unfold result_of, world_of, trace_of. simpl.
  split; [done|]. split.
  - rewrite Hs. by apply delete_insert_id.
  - unfold disconnect_events. simpl. by destruct d.
Qed.

Lemma config_then_disconnect_witness :
  result_of (run (disconnect (body_sessionId req_s1) None)
               (world_of (run (config req_s1 env_timeout) initial_world)))
    = Done (Response 200 BOk) ∧
  sessions (world_of
              (run (disconnect (body_sessionId req_s1) None)
                 (world_of (run (config req_s1 env_timeout) initial_world))))
    = sessions initial_world ∧
  destroyed_in
    (trace_of (run (disconnect (body_sessionId req_s1) None)
                 (world_of (run (config req_s1 env_timeout) initial_world))))
    = [next_client initial_world].
Proof.
  apply (config_then_disconnect req_s1 env_timeout None initial_world);
    reflexivity.
Defined.

(** ** An invariant of the registry *)

Lemma registry_ok_sub w w' :
  registry_ok w →
  (∀ k s, sessions w' !! k = Some s → sessions w !! k = Some s) →
  (next_client w ≤ next_client w')%nat →
  registry_ok w'.
Proof.
  intros (Ha & Hc & Hd) Hsub Hle. split; [|split].
  - intros k s Hk. specialize (Ha _ _ (Hsub _ _ Hk)). simpl in *.
    destruct (client s); simpl in *; [lia|done].
  - intros k s Hk. eapply Hc, Hsub, Hk.
  - intros k1 k2 s1 s2 c H1 H2. eapply Hd; by apply Hsub.
Qed.

Lemma registry_ok_insert w w' k cid t :
  registry_ok w →
  sessions w' = <[k := Session (Some (next_client w)) cid t]> (sessions w) →
  next_client w' = S (next_client w) →
  registry_ok w'.
Proof.
  intros (Ha & Hc & Hd) Hs Hn.
  assert (Hold : ∀ k' s c, sessions w !! k' = Some s → client s = Some c →
                           (c < next_client w)%nat).
  { intros k' s c Hk Hcl. specialize (Ha _ _ Hk). simpl in Ha.
    by rewrite Hcl in Ha. }
  split; [|split].
  - intros k' s. rewrite Hs, Hn. intros [[_ <-]|[_ Hk]]%lookup_insert_Some.
    + simpl. lia.
    + simpl. destruct (client s) as [c|] eqn:Hcl; [|done]. simpl.
      specialize (Hold _ _ _ Hk Hcl). lia.
  - intros k' s. rewrite Hs. intros [[_ <-]|[_ Hk]]%lookup_insert_Some.
    + by eexists.
    + by eapply Hc.
  - intros k1 k2 s1 s2 c. rewrite Hs.
    intros [[<- <-]|[Hne1 H1]]%lookup_insert_Some
           [[<- <-]|[Hne2 H2]]%lookup_insert_Some; simpl; [done|..].
    + intros [= <-] Hc2. specialize (Hold _ _ _ H2 Hc2). lia.
    + intros Hc1 [= <-]. specialize (Hold _ _ _ H1 Hc1). lia.
    + by eapply Hd.
Qed.

Lemma swept_sub now order (m : gmap string session) k s :
  swept now order m !! k = Some s → m !! k = Some s.
Proof. rewrite swept_lookup. by destruct (evicted now order k). Qed.

(** X11: every record of the registry has a client, that client was built
    by an earlier configuration, and no two keys share a client. This holds
    when the process starts and every handler that writes to the registry
    keeps it: /api/config, /api/disconnect and the sweep. *)
Theorem registry_ok_preserved w :
  registry_ok w →
  (∀ req env, registry_ok (world_of (run (config req env) w))) ∧
  (∀ sid d, registry_ok (world_of (run (disconnect sid d) w))) ∧
  (∀ now destroyed order,
     registry_ok (world_of (run (sweep now destroyed order) w))).
Proof.
  intros Hok. split; [|split].
  - intros req env.
    destruct (truthy (body_token req) && truthy (body_sessionId req)) eqn:Hv.
    + apply andb_true_iff in Hv as [Htok Hsid].
      destruct (run_config req env w Htok Hsid) as (w' & -> & Hs & Hn & _).
      unfold world_of. simpl. unfold config_sessions in Hs.
      destruct (login_result env).
      * apply (registry_ok_sub w); [done| |lia].
        intros k s. rewrite Hs. by intros [_ ?]%lookup_delete_Some.
      * by eapply registry_ok_insert.
    + by rewrite (run_config_invalid req env w Hv).
  - intros sid d. destruct (truthy sid) eqn:Hsid.
    + destruct (sessions w !! default "" sid) as [s|] eqn:Hs.
      * rewrite (run_disconnect_present sid d w s Hsid Hs).
        apply (registry_ok_sub w); [done| |done].
        intros k s'. unfold world_of. simpl.
        by intros [_ ?]%lookup_delete_Some.
      * unfold run, disconnect. rewrite Hsid. mred. simpl. by rewrite Hs.
    + unfold run, disconnect. by rewrite Hsid.
  - intros now destroyed order. rewrite run_sweep.
    apply (registry_ok_sub w); [done| |done].
    intros k s. unfold world_of. simpl. apply swept_sub.
Qed.

Lemma initial_world_ok : registry_ok initial_world.
Proof.
  split; [apply map_Forall_empty|]. split.
  - intros k s Hk. simpl in Hk. by rewrite lookup_empty in Hk.
  - intros k1 k2 s1 s2 c Hk. simpl in Hk. by rewrite lookup_empty in Hk.
Qed.

Lemma registry_ok_preserved_witness :
  (∀ req env, registry_ok (world_of (run (config req env) world_s1))) ∧
  (∀ sid d, registry_ok (world_of (run (disconnect sid d) world_s1))) ∧
  (∀ now destroyed order,
     registry_ok (world_of (run (sweep now destroyed order) world_s1))).
Proof.
  apply (registry_ok_preserved world_s1).
  split; [apply map_Forall_singleton; simpl; lia|]. split.
  - intros k s Hk. simpl in Hk.
    apply lookup_singleton_Some in Hk as [_ <-]. by eexists.
  - intros k1 k2 s1 s2 c H1 H2. simpl in H1, H2.
    apply lookup_singleton_Some in H1 as [<- _].
    by apply lookup_singleton_Some in H2 as [<- _].
Defined.

(** ** Requests without a session key, and sessions that are not connected *)

(** X12: /api/disconnect, /api/status, /api/send, /api/guilds,
    /api/channels and /api/invite answer 400 'sessionId é obrigatório' when
    the session key is absent or empty, before they look at anything else,
    and leave the state as it is. *)
Theorem missing_sessionId_rejected sid w :
  truthy sid = false →
  (∀ d, run (disconnect sid d) w =
          (Done (Response 400 (BError "sessionId é obrigatório")), w,
           [EvRespond (Response 400 (BError "sessionId é obrigatório"))])) ∧
  (∀ isReady, run (status_handler sid isReady) w =
          (Done (Response 400 (BError "sessionId é obrigatório")), w,
           [EvRespond (Response 400 (BError "sessionId é obrigatório"))])) ∧
  (∀ channelId message env,
     run (send (SendReq channelId message sid) env) w =
          (Done (Response 400 (BError "sessionId é obrigatório")), w,
           [EvRespond (Response 400 (BError "sessionId é obrigatório"))])) ∧
  (∀ env, run (guilds_handler sid env) w =
          (Done (Reply 400 (inl (BError "sessionId é obrigatório"))), w, [])) ∧
  (∀ guildId env, run (channels_handler guildId sid env) w =
          (Done (Reply 400 (inl (BError "sessionId é obrigatório"))), w, [])) ∧
  run (invite_handler sid) w =
          (Done (Reply 400 (inl (BError "sessionId é obrigatório"))), w, []).
Proof.
  intros Hsid.
  unfold run, disconnect, status_handler, send, guilds_handler,
    channels_handler, invite_handler. simpl. rewrite Hsid. simpl.
  repeat split.
Qed.

Lemma missing_sessionId_rejected_witness :
  (∀ d, run (disconnect (Some "") d) world_s1 =
          (Done (Response 400 (BError "sessionId é obrigatório")), world_s1,
           [EvRespond (Response 400 (BError "sessionId é obrigatório"))])) ∧
  (∀ isReady, run (status_handler (Some "") isReady) world_s1 =
          (Done (Response 400 (BError "sessionId é obrigatório")), world_s1,
           [EvRespond (Response 400 (BError "sessionId é obrigatório"))])) ∧
  (∀ channelId message env,
     run (send (SendReq channelId message (Some "")) env) world_s1 =
          (Done (Response 400 (BError "sessionId é obrigatório")), world_s1,
           [EvRespond (Response 400 (BError "sessionId é obrigatório"))])) ∧
  (∀ env, run (guilds_handler (Some "") env) world_s1 =
          (Done (Reply 400 (inl (BError "sessionId é obrigatório"))),
           world_s1, [])) ∧
  (∀ guildId env, run (channels_handler guildId (Some "") env) world_s1 =
          (Done (Reply 400 (inl (BError "sessionId é obrigatório"))),
           world_s1, [])) ∧
  run (invite_handler (Some "")) world_s1 =
          (Done (Reply 400 (inl (BError "sessionId é obrigatório"))),
           world_s1, []).
Proof. apply (missing_sessionId_rejected (Some "") world_s1). reflexivity. Defined.

Lemma connected_false isReady (o : option session) :
  connected isReady o = false ↔ ready_client isReady o = None.
Proof.
  unfold connected. rewrite bool_decide_eq_false.
  destruct (ready_client isReady o); split; try done.
  intros H. destruct H. by eexists.
Qed.

(** X13: the four handlers that need a connected bot agree on what that
    is. For a session key and a state of the clients, /api/status answers
    [online: false] exactly when /api/guilds, /api/channels and /api/send
    answer 400 'bot não conectado'. *)
Theorem not_connected_agree sid isReady caches w :
  truthy sid = true →
  let offline := Reply 400 (inl (BError "bot não conectado")) in
  ∃ b,
    result_of (run (status_handler sid isReady) w)
      = Done (Response 200 (BOnline b)) ∧
    (b = false ↔
     result_of (run (guilds_handler sid (ListingEnv isReady caches)) w)
       = Done offline) ∧
    (∀ guildId,
       b = false ↔
       result_of (run (channels_handler guildId sid
                         (ListingEnv isReady caches)) w)
         = Done offline) ∧
    (∀ channelId message fetched sent,
       b = false ↔
       result_of (run (send (SendReq channelId message sid)
                         (SendEnv isReady fetched sent)) w)
         = Done (Response 400 (BError "bot não conectado"))).
Proof.
  intros Hsid offline. exists (connected isReady (sessions w !! default "" sid)).
  unfold run, status_handler, guilds_handler, channels_handler, send.
  simpl. rewrite Hsid. mred. simpl. split; [done|].
  destruct (ready_client isReady (sessions w !! default "" sid)) as [c|] eqn:Hc.
  - assert (connected isReady (sessions w !! default "" sid) = true) as ->.
    { unfold connected. rewrite Hc. by apply bool_decide_eq_true. }
    split; [|split].
    + split; [done|]. unfold result_of; simpl. intros [=].
    + intros guildId. split; [done|]. unfold result_of.
      destruct (cache_get guildId (caches c)); simpl; intros [=].
    + intros channelId message fetched sent. split; [done|].
      unfold result_of.
      destruct (truthy channelId), (truthy message), fetched as [e|[|[]]],
        sent; simpl;
        repeat match goal with
               | |- context [nullish ?e] => destruct (nullish e); simpl
               end;
        intros [=].
  - assert (connected isReady (sessions w !! default "" sid) = false) as ->.
    { by apply connected_false. }
    split; [done|]. split; [done|]. done.
Qed.

Lemma not_connected_agree_witness :
  ∃ b,
    result_of (run (status_handler (Some "s1") (λ _, false)) world_s1)
      = Done (Response 200 (BOnline b)) ∧
    (b = false ↔
     result_of (run (guilds_handler (Some "s1")
                       (ListingEnv (λ _, false) (λ _, []))) world_s1)
       = Done (Reply 400 (inl (BError "bot não conectado")))) ∧
    (∀ guildId,
       b = false ↔
       result_of (run (channels_handler guildId (Some "s1")
                         (ListingEnv (λ _, false) (λ _, []))) world_s1)
         = Done (Reply 400 (inl (BError "bot não conectado")))) ∧
    (∀ channelId message fetched sent,
       b = false ↔
       result_of (run (send (SendReq channelId message (Some "s1"))
                         (SendEnv (λ _, false) fetched sent)) world_s1)
         = Done (Response 400 (BError "bot não conectado"))).
Proof.
  apply (not_connected_agree (Some "s1") (λ _, false) (λ _, []) world_s1).
  reflexivity.
Defined.

(** ** POST /api/send once the session is connected *)

Lemma run_send_ready req env w c :
  truthy (send_sessionId req) = true →
  truthy (send_channelId req) = true →
  truthy (send_message req) = true →
  ready_client (isReady env)
    (sessions w !! default "" (send_sessionId req)) = Some c →
  run (send req env) w =
    (send_result env, w,
     EvFetch c (default "" (send_channelId req)) ::
     match fetched env with
     | inr (Channel true) =>
         [EvSend (default "" (send_channelId req))
                 (default "" (send_message req))]
     | _ => []
     end ++
     match fetched env, sent env with
     | inl e, _ | inr (Channel true), inl e =>
         [EvConsoleError
            ("Erro ao enviar mensagem [" +:+
             default "" (send_sessionId req) +:+ "]:") e]
     | _, _ => []
     end ++
     match send_result env with
     | Done r => [EvRespond r]
     | Thrown _ => []
     end).
Proof.
  intros Hsid Hch Hmsg Hc. unfold run, send, send_result, send_failure.
  rewrite Hsid. mred. simpl. rewrite Hc, Hch, Hmsg. simpl.
  destruct (fetched env) as [e|[|[]]], (sent env) as [e'|id]; simpl;
    try done.
  all: try (by destruct (nullish e)).
  by destruct (nullish e').
Qed.



Example send_delivers_hello :
  run (send req_send_hello env_send_ok) world_s1 =
    (Done (Response 200 (BSent "m1")), world_s1,
     [EvFetch 0 "c1"; EvSend "c1" "hello";
      EvRespond (Response 200 (BSent "m1"))]).
Proof. by vm_compute. Qed.

Example send_rejected_with_error :
  run (send req_send_hello (SendEnv (λ _, true) (inl boom) (inr "m1")))
      world_s1 =
    (Done (Response 500 (BError "boom")), world_s1,
     [EvFetch 0 "c1"; EvConsoleError "Erro ao enviar mensagem [s1]:" boom;
      EvRespond (Response 500 (BError "boom"))]).
Proof. by vm_compute. Qed.

(** X15: /api/send never writes to the registry, whatever it answers; and
    it sends nothing unless the session key is there, the session's client
    is ready, the channel id and the message are there and the fetched
    channel has a [send]. *)
Theorem send_only_when_ready req env w :
  let out := run (send req env) w in
  world_of out = w ∧
  destroyed_in (trace_of out) = [] ∧
  (existsb is_send (trace_of out) = true →
   truthy (send_sessionId req) = true ∧
   truthy (send_channelId req) = true ∧
   truthy (send_message req) = true ∧
   is_Some (ready_client (isReady env)
              (sessions w !! default "" (send_sessionId req))) ∧
   fetched env = inr (Channel true)).
Proof.
  intros out. subst out.
  destruct (truthy (send_sessionId req)) eqn:Hsid.
  - destruct (ready_client (isReady env)
                (sessions w !! default "" (send_sessionId req)))
      as [c|] eqn:Hc.
    + destruct (truthy (send_channelId req)) eqn:Hch;
        [destruct (truthy (send_message req)) eqn:Hmsg|].
      * rewrite (run_send_ready req env w c Hsid Hch Hmsg Hc).
        unfold world_of, trace_of, send_result, send_failure. simpl.
        destruct (fetched env) as [e|[|[]]], (sent env) as [e'|id]; simpl;
          repeat match goal with
                 | |- context [nullish ?e] => destruct (nullish e); simpl
                 end;
          repeat split; try done; by eexists.
      * unfold run, send. rewrite Hsid. mred. simpl.
        rewrite Hc, Hch, Hmsg. simpl. repeat split; done.
      * unfold run, send. rewrite Hsid. mred. simpl.
        rewrite Hc, Hch. simpl. repeat split; done.
    + unfold run, send. rewrite Hsid. mred. simpl. rewrite Hc.
      repeat split; done.
  - unfold run, send. rewrite Hsid. simpl. repeat split; done.
Qed.

(** ** More on the sweep *)

Lemma sweep_lookup_Some now order (m : gmap string session) k s :
  order ≡ₚ map_to_list m →
  m !! k = Some s →
  swept now order m !! k = if expired now s then None else Some s.
Proof.
  intros Hperm Hk. rewrite swept_lookup.
  destruct (evicted now order k) eqn:Hev.
  - apply evicted_true in Hev as (s' & Hin & Hs').
    rewrite Hperm in Hin. apply elem_of_map_to_list in Hin.
    rewrite Hk in Hin. injection Hin as ->. by rewrite Hs'.
  - destruct (expired now s) eqn:Hs; [|done].
    assert (evicted now order k = true) as Hev'; [|congruence].
    apply evicted_true. exists s. split; [|done].
    rewrite Hperm. by apply elem_of_map_to_list.
Qed.

Lemma sweep_nothing now order (m : gmap string session) :
  (∀ k s, (k, s) ∈ order → expired now s = false) →
  swept now order m = m ∧ flat_map (sweep_entry_events now) order = [].
Proof.
  revert m. induction order as [|[k s] order IH]; intros m Hall; [done|].
  assert (Hs : expired now s = false) by (eapply Hall; left).
  simpl. unfold sweep_entry_events at 1. simpl. rewrite Hs. simpl.
  apply IH. intros k' s' Hin. eapply Hall. by right.
Qed.

Lemma run_sweep_nothing now destroyed order w :
  order ≡ₚ map_to_list (sessions w) →
  (∀ k s, sessions w !! k = Some s → (now - createdAt s ≤ 3600000)%Z) →
  run (sweep now destroyed order) w = (Done (), w, []).
Proof.
  intros Hperm Hall. rewrite run_sweep.
  destruct (sweep_nothing now order (sessions w)) as [-> ->].
  - intros k s Hin. rewrite Hperm in Hin. apply elem_of_map_to_list in Hin.
    specialize (Hall _ _ Hin). unfold expired. apply bool_decide_eq_false. lia.
  - by destruct w.
Qed.

(** X16: a sweep that finds no record older than one hour does nothing: it
    destroys no client, deletes no record, logs nothing and leaves the
    state as it is. *)
Theorem sweep_nothing_expired now destroyed order w :
  order ≡ₚ map_to_list (sessions w) →
  (∀ k s, sessions w !! k = Some s → (now - createdAt s ≤ 3600000)%Z) →
  run (sweep now destroyed order) w = (Done (), w, []).
Proof. apply run_sweep_nothing. Qed.

Lemma sweep_nothing_expired_witness :
  run (sweep 3600000 (λ _, Some boom) order_abc) world_three
  = (Done (), world_three, []).
Proof.
  apply (sweep_nothing_expired 3600000 (λ _, Some boom) order_abc world_three).
  - vm_compute. symmetry. apply (Permutation_cons_append [_; _]).
  - intros k s Hk. simpl in Hk.
    repeat (apply lookup_insert_Some in Hk as [[_ <-]|[_ Hk]]; [simpl; lia|]).
    by rewrite lookup_empty in Hk.
Defined.

(** X17: sweeping twice is sweeping once. After a sweep at [now], a second
    sweep at the same time or earlier, in any order, does nothing. *)
Theorem sweep_twice now now' d d' order order' w :
  order ≡ₚ map_to_list (sessions w) →
  order' ≡ₚ
    map_to_list (sessions (world_of (run (sweep now d order) w))) →
  (now' ≤ now)%Z →
  run (sweep now' d' order') (world_of (run (sweep now d order) w)) =
    (Done (), world_of (run (sweep now d order) w), []).
Proof.
  intros Hperm Hperm' Hle. apply run_sweep_nothing; [done|].
  intros k s. rewrite run_sweep. unfold world_of. simpl. intros Hk.
  pose proof (swept_sub _ _ _ _ _ Hk) as Hk0.
  rewrite (sweep_lookup_Some now order _ k s Hperm Hk0) in Hk.
  unfold expired in Hk. case_bool_decide; [done|]. lia.
Qed.

Lemma sweep_twice_witness :
  run (sweep 4000000 (λ _, None) [("b", Session (Some 1%nat) (Some "77") 5000000)])
      (world_of (run (sweep 4000000 (λ _, Some boom) order_abc) world_three)) =
    (Done (),
     world_of (run (sweep 4000000 (λ _, Some boom) order_abc) world_three), []).
Proof.
  apply (sweep_twice 4000000 4000000 (λ _, Some boom) (λ _, None) order_abc
           [("b", Session (Some 1%nat) (Some "77") 5000000)] world_three).
  - vm_compute. symmetry. apply (Permutation_cons_append [_; _]).
  - vm_compute. reflexivity.
  - lia.
Defined.

Lemma sweep_entry_counts now (entry : string * session) :
  length (List.filter is_delete (sweep_entry_events now entry)) =
    (if expired now entry.2 then 1%nat else 0%nat) ∧
  length (List.filter is_console_log (sweep_entry_events now entry)) =
    (if expired now entry.2 then 1%nat else 0%nat).
Proof.
  unfold sweep_entry_events.
  destruct (expired now entry.2); [|done]. by destruct (client entry.2).
Qed.

Lemma sweep_counts now order (m : gmap string session) :
  NoDup order.*1 →
  (∀ k s, (k, s) ∈ order → m !! k = Some s) →
  size m =
    (size (swept now order m) +
     length (List.filter is_delete
               (flat_map (sweep_entry_events now) order)))%nat ∧
  length (List.filter is_delete (flat_map (sweep_entry_events now) order)) =
    length (List.filter is_console_log
              (flat_map (sweep_entry_events now) order)).
Proof.
  revert m. induction order as [|[k s] order IH]; intros m Hnd Hin.
  - simpl. split; [lia|done].
  - simpl in Hnd. apply NoDup_cons in Hnd as [Hk Hnd].
    assert (Hks : m !! k = Some s) by (apply Hin; left).
    destruct (sweep_entry_counts now (k, s)) as [Hd Hc].
    cbn [flat_map swept]. rewrite !List.filter_app, !length_app, Hd, Hc.
    cbn [snd]. destruct (expired now s) eqn:Hx.
    + destruct (IH (delete k m) Hnd) as [IH1 IH2].
      { intros k' s' Hin'. rewrite lookup_delete_ne; [apply Hin; by right|].
        intros <-. apply Hk. apply list_elem_of_fmap. by exists (k, s'). }
      assert (size m = S (size (delete k m))) as ->.
      { rewrite <- (insert_delete_id m k s Hks) at 1.
        apply map_size_insert_None, lookup_delete_eq. }
      split; lia.
    + destruct (IH m Hnd) as [IH1 IH2].
      { intros k' s' Hin'. apply Hin. by right. }
      split; lia.
Qed.

(** X18: the sweep logs one line for each record it deletes, and the
    registry shrinks by that many records. *)
Theorem sweep_logs_each_eviction now destroyed order w :
  order ≡ₚ map_to_list (sessions w) →
  let out := run (sweep now destroyed order) w in
  length (List.filter is_console_log (trace_of out)) =
    length (List.filter is_delete (trace_of out)) ∧
  size (sessions w) =
    (size (sessions (world_of out)) +
     length (List.filter is_delete (trace_of out)))%nat.
Proof.
  intros Hperm out. subst out. rewrite run_sweep.
  unfold world_of, trace_of. simpl.
  destruct (sweep_counts now order (sessions w)) as [H1 H2].
  - rewrite Hperm. apply NoDup_fst_map_to_list.
  - intros k s Hin. rewrite Hperm in Hin. by apply elem_of_map_to_list.
  - split; [symmetry; exact H2|exact H1].
Qed.

Lemma sweep_logs_each_eviction_witness :
  length (List.filter is_console_log
            (trace_of (run (sweep 4000000 (λ _, None) order_abc) world_three))) =
    length (List.filter is_delete
              (trace_of (run (sweep 4000000 (λ _, None) order_abc) world_three))) ∧
  size (sessions world_three) =
    (size (sessions (world_of (run (sweep 4000000 (λ _, None) order_abc)
                                 world_three))) +
     length (List.filter is_delete
               (trace_of (run (sweep 4000000 (λ _, None) order_abc)
                            world_three))))%nat.
Proof.
  apply (sweep_logs_each_eviction 4000000 (λ _, None) order_abc world_three).
  vm_compute. symmetry. apply (Permutation_cons_append [_; _]).
Defined.

Lemma destroyed_in_sweep now order c :
  c ∈ destroyed_in (flat_map (sweep_entry_events now) order) ↔
  ∃ k s, (k, s) ∈ order ∧ expired now s = true ∧ client s = Some c.
Proof.
  induction order as [|[k s] order IH].
  - simpl. split; [by intros ?%elem_of_nil|].
    by intros (k & s & ?%elem_of_nil & _).
  - simpl. unfold destroyed_in in *. rewrite omap_app, elem_of_app, IH.
    unfold sweep_entry_events at 1. simpl. split.
    + intros [Hin|(k' & s' & Hin & Hx & Hc)].
      * destruct (expired now s) eqn:Hx; [|by apply elem_of_nil in Hin].
        destruct (client s) as [c'|] eqn:Hc; simpl in Hin;
          [|by apply elem_of_nil in Hin].
        apply list_elem_of_singleton in Hin as ->.
        exists k, s. split; [left|done].
      * exists k', s'. split; [by right|done].
    + intros (k' & s' & Hin & Hx & Hc).
      apply elem_of_cons in Hin as [[= -> ->]|Hin].
      * left. rewrite Hx, Hc. simpl. left.
      * right. by exists k', s'.
Qed.

(** X19: a record lives one hour from its configuration. After a
    configuration that succeeds at time [t], a sweep at [now] leaves the
    record under the key when [now - t <= 3600000], and otherwise removes
    it and destroys its client; the sweep destroys that client in no other
    case. *)
Theorem config_then_sweep req env w now destroyed order :
  clients_allocated w →
  truthy (body_token req) = true →
  truthy (body_sessionId req) = true →
  login_result env = None →
  order ≡ₚ map_to_list (sessions (world_of (run (config req env) w))) →
  let sid := default "" (body_sessionId req) in
  let out := run (sweep now destroyed order)
               (world_of (run (config req env) w)) in
  sessions (world_of out) !! sid =
    (if bool_decide (now - date_now env > 3600000) then None
     else Some (Session (Some (next_client w)) (or_null (body_clientId req))
                        (date_now env))) ∧
  (next_client w ∈ destroyed_in (trace_of out) ↔
   now - date_now env > 3600000).
Proof.
  intros Hwf Htok Hsid Hl Hperm sid out. subst out.
  rewrite run_sweep. unfold world_of at 1, trace_of. simpl.
  destruct (run_config req env w Htok Hsid) as (w' & Hrun & Hs & _).
  rewrite Hrun in Hperm |- *.
  change (world_of (Done (config_reply req env), w', config_events req env w))
    with w' in *.
  unfold config_sessions in Hs. rewrite Hl in Hs. fold sid in Hs.
  set (r := Session (Some (next_client w)) (or_null (body_clientId req))
                    (date_now env)) in *.
  assert (Hk : sessions w' !! sid = Some r).
  { rewrite Hs. apply lookup_insert_eq. }
  split; [by rewrite (sweep_lookup_Some now order _ sid r Hperm Hk)|].
  rewrite destroyed_in_sweep. split.
  - intros (k & s & Hin & Hx & Hc).
    rewrite Hperm in Hin. apply elem_of_map_to_list in Hin.
    rewrite Hs in Hin. apply lookup_insert_Some in Hin as [[_ <-]|[_ Hin]].
    + unfold expired in Hx. by apply bool_decide_eq_true in Hx.
    + specialize (Hwf _ _ Hin). simpl in Hwf. rewrite Hc in Hwf.
      simpl in Hwf. lia.
  - intros Hx. exists sid, r. split; [|split; [|done]].
    + rewrite Hperm. by apply elem_of_map_to_list.
    + unfold expired. by apply bool_decide_eq_true.
Qed.

Lemma config_then_sweep_witness :
  sessions (world_of (run (sweep 3601001 (λ _, None)
                             [("s1", Session (Some 0%nat) (Some "123") 1000)])
                        (world_of (run (config req_s1 env_timeout)
                                     initial_world)))) !! "s1" =
    (if bool_decide (3601001 - date_now env_timeout > 3600000) then None
     else Some (Session (Some (next_client initial_world))
                        (or_null (body_clientId req_s1))
                        (date_now env_timeout))) ∧
  (next_client initial_world
     ∈ destroyed_in
         (trace_of (run (sweep 3601001 (λ _, None)
                           [("s1", Session (Some 0%nat) (Some "123") 1000)])
                      (world_of (run (config req_s1 env_timeout)
                                   initial_world)))) ↔
   3601001 - date_now env_timeout > 3600000).
Proof.
  apply (config_then_sweep req_s1 env_timeout initial_world 3601001 (λ _, None)
           [("s1", Session (Some 0%nat) (Some "123") 1000)]).
  - apply map_Forall_empty.
  - reflexivity.
  - reflexivity.
  - reflexivity.
  - vm_compute. reflexivity.
Defined.

(** ** GET /api/guilds and GET /api/channels/:guildId *)

Lemma cache_get_None {A} k (c : list (string * A)) :
  cache_get k c = None ↔ k ∉ c.*1.
Proof.
  induction c as [|[k' v] c IH]; simpl.
  - split; [intros _; apply not_elem_of_nil|done].
  - rewrite not_elem_of_cons. case_bool_decide as Hk.
    + split; [done|]. intros [Hne _]. by destruct Hne.
    + rewrite IH. split; [by intros ?; split|by intros [_ ?]].
Qed.

Lemma cache_get_Some {A} k (c : list (string * A)) v :
  cache_get k c = Some v → (k, v) ∈ c.
Proof.
  induction c as [|[k' v'] c IH]; simpl; [done|].
  case_bool_decide as Hk.
  - intros [= <-]. subst k'. left.
  - intros Hget. right. by apply IH.
Qed.

Lemma text_like_types ch :
  text_like ch = true ↔
  chan_type ch = 0 ∨ chan_type ch = 5 ∨ chan_type ch = 15.
Proof. unfold text_like. rewrite !orb_true_iff, !Z.eqb_eq. tauto. Qed.

Lemma channels_listing (l : list (string * chan)) :
  (λ c, Chan (chan_id c.2) (chan_name c.2) (chan_type c.2))
    <$> filter (λ c, text_like c.2 = true) l
  = filter (λ ch, text_like ch = true) l.*2.
Proof.
  induction l as [|[k [i n t]] l IH]; [done|].
  rewrite (fmap_cons snd), !filter_cons. cbn [snd].
  destruct (decide (text_like (Chan i n t) = true)); [|exact IH].
  rewrite fmap_cons. cbn [snd chan_id chan_name chan_type]. f_equal. exact IH.
Qed.

(** X20: sessions do not see each other's bots. What /api/guilds and
    /api/channels answer for a key depends on the client stored under that
    key only: its readiness and its cache of guilds. *)
Theorem listings_depend_on_own_client sid guildId env env' w s c :
  truthy sid = true →
  sessions w !! default "" sid = Some s →
  client s = Some c →
  client_ready env c = client_ready env' c →
  guilds_cache env c = guilds_cache env' c →
  run (guilds_handler sid env) w = run (guilds_handler sid env') w ∧
  run (channels_handler guildId sid env) w =
    run (channels_handler guildId sid env') w.
Proof.
  intros Hsid Hs Hc Hr Hg.
  unfold run, guilds_handler, channels_handler, ready_client.
  rewrite Hsid. mred. simpl. rewrite Hs, Hc, Hr.
  destruct (client_ready env' c); [|done]. by rewrite Hg.
Qed.

Lemma listings_depend_on_own_client_witness :
  run (guilds_handler (Some "s1") env_listing) world_s1 =
    run (guilds_handler (Some "s1")
           (ListingEnv (λ c, bool_decide (c = 0%nat))
              (λ c, if bool_decide (c = 0%nat)
                    then guilds_cache env_listing 0%nat else [])))
        world_s1 ∧
  run (channels_handler "g1" (Some "s1") env_listing) world_s1 =
    run (channels_handler "g1" (Some "s1")
           (ListingEnv (λ c, bool_decide (c = 0%nat))
              (λ c, if bool_decide (c = 0%nat)
                    then guilds_cache env_listing 0%nat else [])))
        world_s1.
Proof.
  apply (listings_depend_on_own_client (Some "s1") "g1" env_listing
           (ListingEnv (λ c, bool_decide (c = 0%nat))
              (λ c, if bool_decide (c = 0%nat)
                    then guilds_cache env_listing 0%nat else []))
           world_s1 (Session (Some 0%nat) None 500) 0%nat); reflexivity.
Defined.

(** X21: for a connected session and a guild of its client's cache,
    /api/channels answers 200 with the channels of that guild whose type is
    0, 5 or 15, all of them and no other, in the order of the cache, and
    changes nothing. *)
Theorem channels_text_only guildId sid env w c g :
  truthy sid = true →
  ready_client (client_ready env) (sessions w !! default "" sid) = Some c →
  cache_get guildId (guilds_cache env c) = Some g →
  ∃ chans,
    run (channels_handler guildId sid env) w =
      (Done (Reply 200 (inr (PChannels chans))), w, []) ∧
    (∀ ch, ch ∈ chans ↔
           ch ∈ (guild_channels g).*2 ∧
           (chan_type ch = 0 ∨ chan_type ch = 5 ∨ chan_type ch = 15)) ∧
    sublist chans (guild_channels g).*2.
Proof.
  intros Hsid Hc Hg. eexists. split; [|split].
  - unfold run, channels_handler. rewrite Hsid. mred. simpl.
    rewrite Hc, Hg. mred. by rewrite channels_listing.
  - intros ch. rewrite list_elem_of_filter, text_like_types. tauto.
  - apply sublist_filter.
Qed.

Lemma channels_text_only_witness :
  ∃ chans,
    run (channels_handler "g1" (Some "s1") env_listing) world_s1 =
      (Done (Reply 200 (inr (PChannels chans))), world_s1, []) ∧
    (∀ ch, ch ∈ chans ↔
           ch ∈ [("c1", Chan "c1" "general" 0); ("c2", Chan "c2" "voice" 2);
                 ("c3", Chan "c3" "news" 5); ("c4", Chan "c4" "forum" 15)].*2 ∧
           (chan_type ch = 0 ∨ chan_type ch = 5 ∨ chan_type ch = 15)) ∧
    sublist chans
      [("c1", Chan "c1" "general" 0); ("c2", Chan "c2" "voice" 2);
       ("c3", Chan "c3" "news" 5); ("c4", Chan "c4" "forum" 15)].*2.
Proof.
  apply (channels_text_only "g1" (Some "s1") env_listing world_s1 0%nat
           (Guild "g1" "Guild one"
              [("c1", Chan "c1" "general" 0); ("c2", Chan "c2" "voice" 2);
               ("c3", Chan "c3" "news" 5); ("c4", Chan "c4" "forum" 15)]));
    reflexivity.
Defined.

Example channels_of_g1 :
  result_of (run (channels_handler "g1" (Some "s1") env_listing) world_s1) =
    Done (Reply 200 (inr (PChannels [Chan "c1" "general" 0;
                                     Chan "c3" "news" 5;
                                     Chan "c4" "forum" 15]))).
Proof. by vm_compute. Qed.

Example guilds_of_s1 :
  result_of (run (guilds_handler (Some "s1") env_listing) world_s1) =
    Done (Reply 200 (inr (PGuilds [GuildInfo "g1" "Guild one";
                                   GuildInfo "g2" "Guild two"]))).
Proof. by vm_compute. Qed.

(** X22: for a connected session, a guild id that is not a key of the
    client's cache of guilds gets 404 'guild não encontrada'. *)
Theorem channels_unknown_guild guildId sid env w c :
  truthy sid = true →
  ready_client (client_ready env) (sessions w !! default "" sid) = Some c →
  guildId ∉ (guilds_cache env c).*1 →
  run (channels_handler guildId sid env) w =
    (Done (Reply 404 (inl (BError "guild não encontrada"))), w, []).
Proof.
  intros Hsid Hc Hg. apply cache_get_None in Hg.
  unfold run, channels_handler. rewrite Hsid. mred. simpl.
  by rewrite Hc, Hg.
Qed.

Lemma channels_unknown_guild_witness :
  run (channels_handler "g9" (Some "s1") env_listing) world_s1 =
    (Done (Reply 404 (inl (BError "guild não encontrada"))), world_s1, []).
Proof.
  apply (channels_unknown_guild "g9" (Some "s1") env_listing world_s1 0%nat);
    [reflexivity | reflexivity |].
  simpl. rewrite !not_elem_of_cons. repeat split; try discriminate.
  apply not_elem_of_nil.
Defined.

(** ** GET /api/invite *)

Lemma truthy_Some s : truthy (Some s) = true ↔ s ≠ "".
Proof.
  unfold truthy. rewrite negb_true_iff. apply String.eqb_neq.
Qed.

Lemma truthy_or_null v : truthy (or_null v) = truthy v.
Proof. unfold or_null. by destruct (truthy v) eqn:Hv. Qed.

Lemma default_or_null v : truthy v = true → default "" (or_null v) = default "" v.
Proof. unfold or_null. by intros ->. Qed.

(** X23: /api/invite answers 200 with a link exactly when the key has a
    record whose [clientId] is a non-empty string, and the link is built
    from that [clientId]; it does not ask whether the bot is connected.
    Otherwise it answers 400 'clientId não configurado'. *)
Theorem invite_needs_clientId sid w :
  truthy sid = true →
  let out := run (invite_handler sid) w in
  world_of out = w ∧
  (∀ url, result_of out = Done (Reply 200 (inr (PInvite url))) ↔
          ∃ s cid, sessions w !! default "" sid = Some s ∧
                   clientId s = Some cid ∧ cid ≠ "" ∧
                   url = invite_url cid) ∧
  (result_of out = Done (Reply 400 (inl (BError "clientId não configurado"))) ↔
   ¬ ∃ s cid, sessions w !! default "" sid = Some s ∧
              clientId s = Some cid ∧ cid ≠ "").
Proof.
  intros Hsid out. subst out. unfold run, invite_handler. rewrite Hsid.
  mred. simpl.
  destruct (sessions w !! default "" sid) as [s|] eqn:Hs.
  - destruct (clientId s) as [cid|] eqn:Hc; simpl.
    + destruct (truthy (Some cid)) eqn:Ht; simpl.
      * apply truthy_Some in Ht. split; [done|]. split.
        -- intros url. split.
           ++ intros [= <-]. by exists s, cid.
           ++ intros (s' & cid' & [= <-] & Hc' & _ & ->).
              rewrite Hc in Hc'. by injection Hc' as <-.
        -- split; [intros [=]|]. intros Hno. destruct Hno. by exists s, cid.
      * assert (cid = "") as ->.
        { destruct (decide (cid = "")) as [|Hne]; [done|].
          apply truthy_Some in Hne. congruence. }
        split; [done|]. split.
        -- intros url. split; [intros [=]|].
           intros (s' & cid' & [= <-] & Hc' & Hne & _).
           rewrite Hc in Hc'. by injection Hc' as <-.
        -- split; [|done]. intros _ (s' & cid' & [= <-] & Hc' & Hne).
           rewrite Hc in Hc'. by injection Hc' as <-.
    + split; [done|]. split.
      * intros url. split; [intros [=]|].
        intros (s' & cid' & [= <-] & Hc' & _). congruence.
      * split; [|done]. intros _ (s' & cid' & [= <-] & Hc' & _). congruence.
  - split; [done|]. split.
    + intros url. split; [intros [=]|]. by intros (s' & cid' & [=] & _).
    + split; [|done]. by intros _ (s' & cid' & [=] & _).
Qed.

Lemma invite_needs_clientId_witness :
  world_of (run (invite_handler (Some "b")) world_three) = world_three ∧
  (∀ url, result_of (run (invite_handler (Some "b")) world_three)
            = Done (Reply 200 (inr (PInvite url))) ↔
          ∃ s cid, sessions world_three !! "b" = Some s ∧
                   clientId s = Some cid ∧ cid ≠ "" ∧
                   url = invite_url cid) ∧
  (result_of (run (invite_handler (Some "b")) world_three)
     = Done (Reply 400 (inl (BError "clientId não configurado"))) ↔
   ¬ ∃ s cid, sessions world_three !! "b" = Some s ∧
              clientId s = Some cid ∧ cid ≠ "").
Proof. apply (invite_needs_clientId (Some "b") world_three). reflexivity. Defined.

Example invite_of_b :
  result_of (run (invite_handler (Some "b")) world_three) =
    Done (Reply 200 (inr (PInvite
      "https://discord.com/oauth2/authorize?client_id=77&permissions=274877905152&scope=bot%20applications.commands"))).
Proof. by vm_compute. Qed.

(** X24: the [clientId] given to /api/config is the one of the invite
    link. After a configuration that passes validation, /api/invite for
    the same key answers with the link built from the request's [clientId]
    if login resolved and the [clientId] was there and not empty, whether
    or not the bot became ready; else it answers 400 'clientId não
    configurado'. *)
Theorem config_then_invite req env w :
  truthy (body_token req) = true →
  truthy (body_sessionId req) = true →
  result_of (run (invite_handler (body_sessionId req))
               (world_of (run (config req env) w))) =
    Done (match login_result env with
          | None =>
              if truthy (body_clientId req)
              then Reply 200 (inr (PInvite
                     (invite_url (default "" (body_clientId req)))))
              else Reply 400 (inl (BError "clientId não configurado"))
          | Some _ => Reply 400 (inl (BError "clientId não configurado"))
          end).
Proof.
  intros Htok Hsid.
  destruct (run_config req env w Htok Hsid) as (w' & Hrun & Hs & _).
  rewrite Hrun.
  change (world_of (Done (config_reply req env), w', config_events req env w))
    with w'.
  unfold run, invite_handler. rewrite Hsid. mred. simpl. rewrite Hs.
  unfold config_sessions. destruct (login_result env).
  - by rewrite lookup_delete_eq.
  - rewrite lookup_insert_eq. simpl. rewrite truthy_or_null.
    destruct (truthy (body_clientId req)) eqn:Hc; [|done].
    by rewrite (default_or_null _ Hc).
Qed.

Lemma config_then_invite_witness :
  result_of (run (invite_handler (body_sessionId req_s1))
               (world_of (run (config req_s1 env_timeout) initial_world))) =
    Done (match login_result env_timeout with
          | None =>
              if truthy (body_clientId req_s1)
              then Reply 200 (inr (PInvite
                     (invite_url (default "" (body_clientId req_s1)))))
              else Reply 400 (inl (BError "clientId não configurado"))
          | Some _ => Reply 400 (inl (BError "clientId não configurado"))
          end).
Proof.
  apply (config_then_invite req_s1 env_timeout initial_world); reflexivity.
Defined.
